(** * Invoice / purchase-order reconciliation agent: session workflow

    A shallow embedding of [src/reconcillation_agent.py].  The program is a
    Streamlit script: every user interaction re-runs [main] against the
    session state kept by the framework.  Its own logic is state
    bookkeeping around calls to outside collaborators (temporary files,
    Azure Document Intelligence, pandas, the Pezzo prompt service, the
    Azure OpenAI connector), so the embedding is an exception-and-state
    monad over a [machine] made of
      - the four [st.session_state] attributes,
      - the scratch files on disk,
      - the chronological record of every outside call, log line and
        widget the script produced (newest first).
    Outside collaborators are a record of reply functions; a reply may
    depend on the whole history, so a service can fail once and succeed
    on the next call. *)

From Stdlib Require Import String Ascii List Bool Arith Lia.
From stdpp Require Import base gmap strings.
Import ListNotations.
Open Scope string_scope.
Open Scope list_scope.

(** ** Python string primitives the script relies on *)

Module Py.

(** [str.lower] on the ASCII range. *)
Definition lower_char (c : ascii) : ascii :=
  let n := nat_of_ascii c in
  if (Nat.leb 65 n) && (Nat.leb n 90) then ascii_of_nat (n + 32) else c.

Fixpoint lower (s : string) : string :=
  match s with
  | EmptyString => EmptyString
  | String c s' => String (lower_char c) (lower s')
  end.

(** [s.endswith(suffix)]: [s] itself is [suffix], or its tail ends with it. *)
Fixpoint endswith (s suffix : string) : bool :=
  String.eqb s suffix
  || match s with
     | EmptyString => false
     | String _ s' => endswith s' suffix
     end.

(** [s.rfind(c)], with [None] for Python's [-1]. *)
Fixpoint rfind (c : ascii) (s : string) : option nat :=
  match s with
  | EmptyString => None
  | String a s' =>
      match rfind c s' with
      | Some i => Some (S i)
      | None => if Ascii.eqb a c then Some 0 else None
      end
  end.

(** [s[i:]] and [s[:i]]. *)
Definition slice_from (i : nat) (s : string) : string :=
  substring i (String.length s - i) s.
Definition slice_to (i : nat) (s : string) : string :=
  substring 0 i s.

Fixpoint has_non_dot (s : string) : bool :=
  match s with
  | EmptyString => false
  | String c s' => negb (Ascii.eqb c ".") || has_non_dot s'
  end.

(** [os.path.splitext] (POSIX flavour, [genericpath._splitext]): the
    extension starts at the last dot of the last path component, unless
    that component has only dots before it. *)
Definition splitext (p : string) : string * string :=
  let filenameIndex := match rfind "/" p with Some i => S i | None => 0 end in
  match rfind "." p with
  | Some dotIndex =>
      if Nat.leb filenameIndex dotIndex
         && has_non_dot (substring filenameIndex (dotIndex - filenameIndex) p)
      then (slice_to dotIndex p, slice_from dotIndex p)
      else (p, "")
  | None => (p, "")
  end.

(** [os.path.basename] (POSIX flavour). *)
Definition basename (p : string) : string :=
  match rfind "/" p with
  | Some i => slice_from (S i) p
  | None => p
  end.

Definition newline : string := String (ascii_of_nat 10) EmptyString.

End Py.

(** ** Exceptions and outcomes *)

(** A Python exception of class [Exception] or below; [str(e)] is
    [exn_msg]. *)
Record Exception := { exn_class : string; exn_msg : string }.

Definition str (e : Exception) : string := exn_msg e.

Definition ValueError (msg : string) : Exception :=
  {| exn_class := "ValueError"; exn_msg := msg |}.

Definition FileNotFoundError (path : string) : Exception :=
  {| exn_class := "FileNotFoundError";
     exn_msg := "[Errno 2] No such file or directory: '" +:+ path +:+ "'" |}.

Definition FileExistsError : Exception :=
  {| exn_class := "FileExistsError";
     exn_msg := "[Errno 17] No usable temporary file name found" |}.

Inductive outcome (A : Type) : Type :=
| Returned (a : A)
| Raised (e : Exception).
Arguments Returned {A} a.
Arguments Raised {A} e.

(** ** What the script does to the outside world *)

Inductive level := INFO | ERROR.

(** Streamlit calls that draw something. *)
Inductive widget :=
| st_title (body : string)
| st_subheader (body : string)
| st_markdown (body : string)
| st_write (body : string)
| st_error (body : string)
| st_info (body : string)
| st_progress (value : nat)
| st_empty
| status_text (body : string)
| st_expander (label : string)
| st_columns (n : nat)
| st_file_uploader (label key : string)
| st_button (label : string)
| st_checkbox (label : string)
| st_spinner (text : string)
| st_download_button (label data file_name mime : string).

Inductive event :=
| Logged (lv : level) (msg : string)
| Called_process_file (file_path document_type : string)
| NamedTemporaryFile (suffix : string)
| DI_new (path : string)
| DI_extract_text (path : string)
| DI_extract_tables (path : string)
| Pandas_read_csv (path : string)
| OpenAI_new
| OpenAI_connect (deploymentname : string)
| Secret_read (key : string)
| Pezzo_new (api_key project_id environment server_url : string)
| Pezzo_get_prompt (prompt_name : string)
| LLM_invoke (prompt_txt : string)
| Shown (w : widget).

(** [Called_process_file] is a call record: the source has no statement
    for it; it is written down on entry to [process_file] so that the
    history tells how often, and for which document, extraction ran. *)

Definition history := list event.

(** ** The session and the machine *)

Inductive role := Invoice | PurchaseOrder.

Definition other (r : role) : role :=
  match r with Invoice => PurchaseOrder | PurchaseOrder => Invoice end.

Section Agent.

Context {Table : Type}.

(** The pair [(text, tables)] both extractors return. *)
Definition content : Type := string * list Table.

(** [st.session_state], lines 17-24: four attributes, all [None] at first. *)
Record session_state := {
  invoice_content : option content;
  po_content : option content;
  invoice_path : option string;
  po_path : option string
}.

Definition initial_session : session_state :=
  {| invoice_content := None; po_content := None;
     invoice_path := None; po_path := None |}.

Record machine := {
  session : session_state;
  files : gmap string string;
  trace : history
}.

Definition content_of (r : role) (s : session_state) : option content :=
  match r with Invoice => invoice_content s | PurchaseOrder => po_content s end.

Definition path_of (r : role) (s : session_state) : option string :=
  match r with Invoice => invoice_path s | PurchaseOrder => po_path s end.

(** The collaborators.  Replies that can change between calls take the
    history so far. *)
Record services := {
  gettempdir : string;
  candidate_names : history -> nat -> string;
  storage_failure : history -> option Exception;
  di_new : history -> string -> outcome unit;
  di_extract_text : history -> string -> outcome string;
  di_extract_tables : history -> string -> outcome (list Table);
  pd_parse_csv : string -> outcome Table;
  df_to_string : Table -> string;
  openai_new : history -> outcome unit;
  connect_azure_open_ai : history -> string -> outcome unit;
  secrets : string -> option string;
  secrets_key_error : string -> Exception;
  pezzo_new : history -> string -> string -> string -> string -> outcome unit;
  get_prompt : history -> string -> outcome string;
  llm_invoke : history -> string -> outcome string;
  str_content : content -> string
}.

Variable sv : services.

(** ** The monad: state is kept when an exception is raised *)

Definition M (A : Type) : Type := machine -> outcome A * machine.

Definition ret {A} (a : A) : M A := fun m => (Returned a, m).

Definition bind {A B} (c : M A) (k : A -> M B) : M B :=
  fun m =>
    match c m with
    | (Returned a, m') => k a m'
    | (Raised e, m') => (Raised e, m')
    end.

Definition raise {A} (e : Exception) : M A := fun m => (Raised e, m).

(** [try: body except Exception as e: handler e]. *)
Definition try_except {A} (body : M A) (handler : Exception -> M A) : M A :=
  fun m =>
    match body m with
    | (Returned a, m') => (Returned a, m')
    | (Raised e, m') => handler e m'
    end.

Definition with_session (s : session_state) (m : machine) : machine :=
  {| session := s; files := files m; trace := trace m |}.

Definition with_trace (t : history) (m : machine) : machine :=
  {| session := session m; files := files m; trace := t |}.

Definition get_session : M session_state := fun m => (Returned (session m), m).

Definition emit (ev : event) : M unit :=
  fun m => (Returned tt, with_trace (ev :: trace m) m).

(** An outside call: its reply is computed from the history before it. *)
Definition call {A} (ev : event) (reply : history -> outcome A) : M A :=
  fun m => (reply (trace m), with_trace (ev :: trace m) m).

Notation "x <- c ;; k" := (bind c (fun x => k))
  (at level 100, c at next level, right associativity).
Notation "c ;; k" := (bind c (fun _ => k))
  (at level 100, right associativity).

Definition log_info (msg : string) : M unit := emit (Logged INFO msg).
Definition log_error (msg : string) : M unit := emit (Logged ERROR msg).
Definition show (w : widget) : M unit := emit (Shown w).

Definition set_invoice_content (v : option content) : M unit :=
  fun m =>
    let s := session m in
    (Returned tt,
     with_session {| invoice_content := v; po_content := po_content s;
                     invoice_path := invoice_path s; po_path := po_path s |} m).

Definition set_po_content (v : option content) : M unit :=
  fun m =>
    let s := session m in
    (Returned tt,
     with_session {| invoice_content := invoice_content s; po_content := v;
                     invoice_path := invoice_path s; po_path := po_path s |} m).

Definition set_invoice_path (v : option string) : M unit :=
  fun m =>
    let s := session m in
    (Returned tt,
     with_session {| invoice_content := invoice_content s;
                     po_content := po_content s;
                     invoice_path := v; po_path := po_path s |} m).

Definition set_po_path (v : option string) : M unit :=
  fun m =>
    let s := session m in
    (Returned tt,
     with_session {| invoice_content := invoice_content s;
                     po_content := po_content s;
                     invoice_path := invoice_path s; po_path := v |} m).

(** ** Content extraction (lines 26-70) *)

(** Lines 26-35. *)
Definition extract_content_from_pdf (pdf_path : string) : M content :=
  log_info ("Extracting from PDF: " +:+ Py.basename pdf_path) ;;
  try_except
    (call (DI_new pdf_path) (fun h => di_new sv h pdf_path) ;;
     extracted_text <-
       call (DI_extract_text pdf_path) (fun h => di_extract_text sv h pdf_path) ;;
     extracted_tables <-
       call (DI_extract_tables pdf_path)
            (fun h => di_extract_tables sv h pdf_path) ;;
     ret (extracted_text, extracted_tables))
    (fun e =>
       log_error ("PDF extraction error: " +:+ str e) ;;
       raise e).

(** [pd.read_csv(path)]: the file must exist; its text is then parsed. *)
Definition pd_read_csv (csv_path : string) : M Table :=
  fun m =>
    (match files m !! csv_path with
     | Some data => pd_parse_csv sv data
     | None => Raised (FileNotFoundError csv_path)
     end,
     with_trace (Pandas_read_csv csv_path :: trace m) m).

(** Lines 37-49. *)
Definition extract_content_from_csv (csv_path : string) : M content :=
  log_info ("Extracting from CSV: " +:+ Py.basename csv_path) ;;
  try_except
    (df <- pd_read_csv csv_path ;;
     let text_content := df_to_string sv df in
     let tables := [df] in
     ret (text_content, tables))
    (fun e =>
       log_error ("CSV extraction error: " +:+ str e) ;;
       raise e).

(** What [process_file] hands back: the content pair, or a string. *)
Inductive pyval :=
| VContent (c : content)
| VStr (s : string).

(** Lines 54-59: the choice of extractor by file extension. *)
Definition extract_by_extension (file_path : string) : M content :=
  if Py.endswith (Py.lower file_path) ".pdf" then
    extract_content_from_pdf file_path
  else if Py.endswith (Py.lower file_path) ".csv" then
    extract_content_from_csv file_path
  else
    raise (ValueError ("Unsupported file format: "
                       +:+ snd (Py.splitext file_path))).

(** Lines 51-70.  The first statement is the call record (see [event]);
    the rest is the source's [try] statement. *)
Definition process_file (file_path document_type : string) : M pyval :=
  emit (Called_process_file file_path document_type) ;;
  try_except
    (content <- extract_by_extension file_path ;;
     (if String.eqb document_type "invoice"
      then set_invoice_content (Some content)
      else set_po_content (Some content)) ;;
     ret (VContent content))
    (fun e =>
       log_error ("Processing error: " +:+ str e) ;;
       ret (VStr ("Error: " +:+ str e))).

(** ** Comparison (lines 72-99) *)

(** Truth value of a path attribute: [None] and the empty string are false. *)
Definition truthy (p : option string) : bool :=
  match p with
  | Some s => negb (String.eqb s "")
  | None => false
  end.

Definition is_None {A} (o : option A) : bool :=
  match o with Some _ => false | None => true end.

(** [str(x)] for a content attribute inside the f-string of line 97. *)
Definition str_attr (o : option content) : string :=
  match o with
  | Some c => str_content sv c
  | None => "None"
  end.

(** [st.secrets[key]]. *)
Definition secret (key : string) : M string :=
  call (Secret_read key)
       (fun _ => match secrets sv key with
                 | Some v => Returned v
                 | None => Raised (secrets_key_error sv key)
                 end).

Definition precondition_error : string :=
  "Error: Invoice or PO content not available. Please extract both documents first.".

(** Lines 76-79: extraction on demand, for a role whose path is set and
    whose content is missing. *)
Definition reextract_missing : M unit :=
  s <- get_session ;;
  (match invoice_path s with
   | Some p =>
       if truthy (invoice_path s) && is_None (invoice_content s)
       then (process_file p "invoice" ;; ret tt)
       else ret tt
   | None => ret tt
   end) ;;
  s <- get_session ;;
  (match po_path s with
   | Some p =>
       if truthy (po_path s) && is_None (po_content s)
       then (process_file p "purchase_order" ;; ret tt)
       else ret tt
   | None => ret tt
   end).

(** Lines 85-99: the calls made once both contents are there. *)
Definition request_summary : M string :=
  call OpenAI_new (openai_new sv) ;;
  call (OpenAI_connect "gpt-4o-mini")
       (fun h => connect_azure_open_ai sv h "gpt-4o-mini") ;;
  api_key <- secret "PEZZO_API_KEY" ;;
  project_id <- secret "PEZZO_PROJECT_ID" ;;
  environment <- secret "PEZZO_ENVIRONMENT" ;;
  server_url <- secret "PEZZO_SERVER_URL" ;;
  call (Pezzo_new api_key project_id environment server_url)
       (fun h => pezzo_new sv h api_key project_id environment server_url) ;;
  let prompt_name := "PurchaseOrder" in
  prompt <- call (Pezzo_get_prompt prompt_name)
                 (fun h => get_prompt sv h prompt_name) ;;
  s <- get_session ;;
  let prompt_txt :=
    prompt +:+ Py.newline +:+ Py.newline +:+ "Text: "
    +:+ str_attr (invoice_content s) +:+ "," +:+ str_attr (po_content s) in
  call (LLM_invoke prompt_txt) (fun h => llm_invoke sv h prompt_txt).

(** Lines 72-99.  The two parameters are the ones of the source. *)
Definition generate_summary (invoice_path_arg po_path_arg : option string)
  : M string :=
  s <- get_session ;;
  stop <-
    (if is_None (invoice_content s) || is_None (po_content s) then
       reextract_missing ;;
       s <- get_session ;;
       ret (is_None (invoice_content s) || is_None (po_content s))
     else ret false) ;;
  if stop : bool then ret precondition_error
  else request_summary.

(** ** Upload (lines 101-135) *)

Record uploaded_file := { name : string; getvalue : string }.

(** [tempfile] tries candidate names until one is unused ([TMP_MAX]
    attempts). *)
Definition TMP_MAX : nat := 100 * 100.

Fixpoint first_unused (cands : nat -> string) (dir suffix : string)
  (fs : gmap string string) (n attempts : nat) : option string :=
  match attempts with
  | 0 => None
  | S k =>
      let p := dir +:+ "/tmp" +:+ cands n +:+ suffix in
      match fs !! p with
      | None => Some p
      | Some _ => first_unused cands dir suffix fs (S n) k
      end
  end.

(** Lines 111-113: [NamedTemporaryFile(delete=False, suffix=...)], the
    write of the uploaded bytes, and the name of the new file. *)
Definition named_temporary_file (suffix data : string) : M string :=
  fun m =>
    let h := trace m in
    let m1 := with_trace (NamedTemporaryFile suffix :: h) m in
    match storage_failure sv h with
    | Some e => (Raised e, m1)
    | None =>
        match first_unused (candidate_names sv h) (gettempdir sv) suffix
                (files m) 0 TMP_MAX with
        | None => (Raised FileExistsError, m1)
        | Some temp_path =>
            (Returned temp_path,
             {| session := session m1;
                files := <[temp_path := data]> (files m1);
                trace := trace m1 |})
        end
    end.

(** Lines 102-113: everything before the [try]; the upload is written to
    a new scratch file whose name is returned. *)
Definition save_upload (uploaded : uploaded_file) (document_type : string)
  : M string :=
  show (st_write ("Processing " +:+ document_type +:+ ": "
                  +:+ name uploaded)) ;;
  show (st_progress 0) ;;
  show st_empty ;;
  show (status_text "Saving file...") ;;
  let file_extension := Py.lower (snd (Py.splitext (name uploaded))) in
  named_temporary_file file_extension (getvalue uploaded).

(** Lines 115-135: the [try] statement. *)
Definition extract_upload (uploaded : uploaded_file)
  (document_type temp_path : string) : M (option pyval * string) :=
  try_except
    (show (st_progress 20) ;;
     show (status_text "Extracting data...") ;;
     result <- process_file temp_path document_type ;;
     show (st_progress 100) ;;
     show (status_text "Done ✅") ;;
     show (st_expander ("Results: " +:+ name uploaded)) ;;
     show (st_markdown "Extracted Successfully") ;;
     (if String.eqb document_type "invoice"
      then set_invoice_path (Some temp_path)
      else set_po_path (Some temp_path)) ;;
     ret (Some result, temp_path))
    (fun e =>
       show (st_error ("Error: " +:+ str e)) ;;
       ret (None, temp_path)).

(** Lines 101-135. *)
Definition process_uploaded_file (uploaded : uploaded_file)
  (document_type : string) : M (option pyval * string) :=
  temp_path <- save_upload uploaded document_type ;;
  extract_upload uploaded document_type temp_path.

(** ** The script body (lines 137-183) *)

(** What the user did before this run of the script: the files sitting in
    the two uploaders and the widgets that were clicked. *)
Record ui_input := {
  invoice_file : option uploaded_file;
  extract_invoice_clicked : bool;
  po_file : option uploaded_file;
  extract_po_clicked : bool;
  show_debug_info : bool;
  compare_clicked : bool
}.

Definition str_path (p : option string) : string :=
  match p with Some s => s | None => "None" end.

Definition str_bool (b : bool) : string := if b then "True" else "False".

(** Lines 137-183. *)
Definition main (inp : ui_input) : M unit :=
  show (st_title "📄 Document Parser") ;;
  show (st_markdown
    "Upload Invoices or Purchase Orders (PDF or CSV) and get structured results.") ;;
  let vision_endpoint := secrets sv "VISION_ENDPOINT" in
  let vision_key := secrets sv "VISION_KEY" in
  if negb (truthy vision_endpoint) || negb (truthy vision_key) then
    show (st_error "Azure Vision credentials missing.")
  else
    show (st_columns 2) ;;
    show (st_subheader "Invoice") ;;
    show (st_file_uploader "Upload Invoice (PDF or CSV)" "invoice") ;;
    (match invoice_file inp with
     | Some f =>
         show (st_button "Extract Invoice") ;;
         if extract_invoice_clicked inp
         then (process_uploaded_file f "invoice" ;; ret tt)
         else ret tt
     | None => ret tt
     end) ;;
    show (st_subheader "Purchase Order") ;;
    show (st_file_uploader "Upload PO (PDF or CSV)" "po") ;;
    (match po_file inp with
     | Some f =>
         show (st_button "Extract Purchase Order") ;;
         if extract_po_clicked inp
         then (process_uploaded_file f "purchase_order" ;; ret tt)
         else ret tt
     | None => ret tt
     end) ;;
    show (st_markdown "---") ;;
    show (st_subheader "📊 Compare Invoice and Purchase Order") ;;
    show (st_checkbox "Show debug info") ;;
    (if show_debug_info inp then
       s <- get_session ;;
       show (st_write ("Invoice path: " +:+ str_path (invoice_path s))) ;;
       show (st_write ("PO path: " +:+ str_path (po_path s))) ;;
       show (st_write ("Invoice content exists: "
                       +:+ str_bool (negb (is_None (invoice_content s))))) ;;
       show (st_write ("PO content exists: "
                       +:+ str_bool (negb (is_None (po_content s)))))
     else ret tt) ;;
    s <- get_session ;;
    if truthy (invoice_path s) && truthy (po_path s) then
      show (st_button "Compare Documents") ;;
      if compare_clicked inp then
        show (st_spinner "Generating comparison summary...") ;;
        comparison <- generate_summary (invoice_path s) (po_path s) ;;
        show (st_markdown comparison) ;;
        show (st_download_button "Download Comparison" comparison
                "invoice_po_comparison.md" "text/markdown")
      else ret tt
    else
      show (st_info "Upload both Invoice and Purchase Order to enable comparison.").

(** The machines a session can be in: a fresh session, then any number of
    runs of the script, whatever the user does and however a run ends. *)
Inductive reachable : machine -> Prop :=
| reachable_start fs :
    reachable {| session := initial_session; files := fs; trace := [] |}
| reachable_rerun m inp :
    reachable m -> reachable (snd (main inp m)).

End Agent.

Arguments session_state : clear implicits.
Arguments machine : clear implicits.
Arguments services : clear implicits.
Arguments pyval : clear implicits.

(** ** Vocabulary of the properties *)

(** The role a [document_type] string selects (lines 62-65 and 127-130):
    ["invoice"] is the invoice, every other string the purchase order. *)
Definition role_of (document_type : string) : role :=
  if String.eqb document_type "invoice" then Invoice else PurchaseOrder.

(** The [document_type] strings [main] and [generate_summary] pass. *)
Definition document_type_of (r : role) : string :=
  match r with Invoice => "invoice" | PurchaseOrder => "purchase_order" end.

(** A path ends in [ext] up to letter case. *)
Definition ends_with_ci (p ext : string) : Prop :=
  exists pre suf, p = pre +:+ suf /\ Py.lower suf = ext.

Definition is_process_file_call (ev : event) : bool :=
  match ev with Called_process_file _ _ => true | _ => false end.

(** Events of the extractors: log lines, Document Intelligence, pandas. *)
Definition is_extraction (ev : event) : bool :=
  match ev with
  | Logged _ _ | DI_new _ | DI_extract_text _ | DI_extract_tables _
  | Pandas_read_csv _ => true
  | _ => false
  end.

(** Events of the comparison steps: the language-model connector, the
    secrets of the prompt service, the prompt service. *)
Definition is_comparison (ev : event) : bool :=
  match ev with
  | OpenAI_new | OpenAI_connect _ | Secret_read _ | Pezzo_new _ _ _ _
  | Pezzo_get_prompt _ | LLM_invoke _ => true
  | _ => false
  end.

Definition is_st_error (ev : event) : bool :=
  match ev with Shown (st_error _) => true | _ => false end.

Definition raised {A} (o : outcome A) : option Exception :=
  match o with Raised e => Some e | Returned _ => None end.

(** The exception, if any, with which the outside world answers the
    comparison-step call [ev] made at history [h]. *)
Definition failure_of {Table} (sv : services Table) (h : history) (ev : event)
  : option Exception :=
  match ev with
  | OpenAI_new => raised (openai_new sv h)
  | OpenAI_connect d => raised (connect_azure_open_ai sv h d)
  | Secret_read k =>
      match secrets sv k with
      | Some _ => None
      | None => Some (secrets_key_error sv k)
      end
  | Pezzo_new a b c d => raised (pezzo_new sv h a b c d)
  | Pezzo_get_prompt n => raised (get_prompt sv h n)
  | LLM_invoke t => raised (llm_invoke sv h t)
  | _ => None
  end.

(** A session in which content is only present for a role with a
    (non-empty) path. *)
Definition consistent {Table} (s : session_state Table) : Prop :=
  forall r, content_of r s <> None -> truthy (path_of r s) = true.

Definition set_content {Table} (r : role) (v : option (@content Table))
  (s : session_state Table) : session_state Table :=
  match r with
  | Invoice =>
      {| invoice_content := v; po_content := po_content s;
         invoice_path := invoice_path s; po_path := po_path s |}
  | PurchaseOrder =>
      {| invoice_content := invoice_content s; po_content := v;
         invoice_path := invoice_path s; po_path := po_path s |}
  end.

Definition set_path {Table} (r : role) (v : option string)
  (s : session_state Table) : session_state Table :=
  match r with
  | Invoice =>
      {| invoice_content := invoice_content s; po_content := po_content s;
         invoice_path := v; po_path := po_path s |}
  | PurchaseOrder =>
      {| invoice_content := invoice_content s; po_content := po_content s;
         invoice_path := invoice_path s; po_path := v |}
  end.

(** The path to extract for role [r] on comparison: set when the role's
    path attribute is true and its content is missing. *)
Definition due {Table} (r : role) (s : session_state Table) : option string :=
  match path_of r s with
  | Some p => if truthy (Some p) && is_None (content_of r s) then Some p else None
  | None => None
  end.

(** The machine after the extraction on demand for role [r]. *)
Definition after_reextract {Table} (sv : services Table) (r : role)
  (m : machine Table) : machine Table :=
  match due r (session m) with
  | Some p => snd (process_file sv p (document_type_of r) m)
  | None => m
  end.

(** Both contents are there. *)
Definition ready {Table} (s : session_state Table) : bool :=
  negb (is_None (invoice_content s) || is_None (po_content s)).

(** "A new upload resets the content of its role", read on an upload
    whose extraction fails: the role's content is absent afterwards. *)
Definition failed_upload_clears_content {Table} (sv : services Table)
  (uploaded : uploaded_file) (document_type : string) (m : machine Table)
  : Prop :=
  let r := process_uploaded_file sv uploaded document_type m in
  forall msg temp_path,
    fst r = Returned (Some (VStr msg), temp_path) ->
    content_of (role_of document_type) (session (snd r)) = None.

(** *** Relations between the machine before and after a computation *)

(** [m'] has the history of [m] plus newer events, all of class [P]. *)
Definition only_adds {Table} (P : event -> bool) (m m' : machine Table) : Prop :=
  exists evs, trace m' = evs ++ trace m /\ forallb P evs = true.

(** Session attributes and files are untouched. *)
Definition same_store {Table} (m m' : machine Table) : Prop :=
  session m' = session m /\ files m' = files m.

(** Both attributes of role [r] are untouched. *)
Definition same_role {Table} (r : role) (m m' : machine Table) : Prop :=
  content_of r (session m') = content_of r (session m)
  /\ path_of r (session m') = path_of r (session m).

(** Both path attributes and the files are untouched. *)
Definition same_paths {Table} (m m' : machine Table) : Prop :=
  invoice_path (session m') = invoice_path (session m)
  /\ po_path (session m') = po_path (session m)
  /\ files m' = files m.

(** Consistency of the session is not lost. *)
Definition keeps_consistent {Table} (m m' : machine Table) : Prop :=
  consistent (session m) -> consistent (session m').

(** Whatever the start and however it ends, [c] relates the machine it
    starts in to the machine it leaves. *)
Definition steps {Table A} (R : machine Table -> machine Table -> Prop)
  (c : @M Table A) : Prop :=
  forall m, R m (snd (c m)).

(** [c] never raises. *)
Definition total {Table A} (c : @M Table A) : Prop :=
  forall m, exists a, fst (c m) = Returned a.

(** The exception, if any, with which Document Intelligence answers the
    call [ev] made at history [h]. *)
Definition di_failure_of {Table} (sv : services Table) (h : history)
  (ev : event) : option Exception :=
  match ev with
  | DI_new p => raised (di_new sv h p)
  | DI_extract_text p => raised (di_extract_text sv h p)
  | DI_extract_tables p => raised (di_extract_tables sv h p)
  | _ => None
  end.

(** What [pd.read_csv] answers for [csv_path] on the disk of [m]. *)
Definition read_csv_reply {Table} (sv : services Table)
  (csv_path : string) (m : machine Table) : outcome Table :=
  match files m !! csv_path with
  | Some data => pd_parse_csv sv data
  | None => Raised (FileNotFoundError csv_path)
  end.

(** Calls to the prompt service and to the model itself. *)
Definition is_prompt_or_model (ev : event) : bool :=
  match ev with
  | Pezzo_new _ _ _ _ | Pezzo_get_prompt _ | LLM_invoke _ => true
  | _ => false
  end.

(** The four secrets line 87-92 read. *)
Definition pezzo_secrets : list string :=
  ["PEZZO_API_KEY"; "PEZZO_PROJECT_ID"; "PEZZO_ENVIRONMENT"; "PEZZO_SERVER_URL"].

(** The request text of line 97. *)
Definition prompt_text {Table} (sv : services Table) (prompt : string)
  (s : session_state Table) : string :=
  prompt +:+ Py.newline +:+ Py.newline +:+ "Text: "
  +:+ str_attr sv (invoice_content s) +:+ "," +:+ str_attr sv (po_content s).

(** Every file of [m] is still there, unchanged, in [m']. *)
Definition files_kept {Table} (m m' : machine Table) : Prop :=
  forall p data, files m !! p = Some data -> files m' !! p = Some data.

(** Every stored path names a file on disk. *)
Definition on_disk {Table} (m : machine Table) : Prop :=
  forall r p, path_of r (session m) = Some p -> is_Some (files m !! p).

Definition keeps_on_disk {Table} (m m' : machine Table) : Prop :=
  on_disk m -> on_disk m'.

(** Whenever [c] returns, the history it leaves satisfies [Q]. *)
Definition when_returned {Table A} (Q : history -> Prop) (c : @M Table A)
  : Prop :=
  forall m a, fst (c m) = Returned a -> Q (trace (snd (c m))).

(** ** A concrete world to run the script in *)

Module Sample.

(** A parsed table: the header line and the data rows, cells as text. *)
Record frame := { columns : list string; rows : list (list string) }.

Fixpoint split_on (sep : ascii) (s : string) : list string :=
  match s with
  | EmptyString => [EmptyString]
  | String c s' =>
      match split_on sep s' with
      | w :: ws => if Ascii.eqb c sep then EmptyString :: w :: ws
                   else String c w :: ws
      | [] => [String c EmptyString]
      end
  end.

Definition EmptyDataError : Exception :=
  {| exn_class := "EmptyDataError";
     exn_msg := "No columns to parse from file" |}.

Definition nonblank (line : string) : bool := negb (String.eqb line "").

(** A comma-separated reader: first line is the header; blank lines are
    skipped; an empty file is an error. *)
Definition parse_csv (data : string) : outcome frame :=
  match List.filter nonblank (split_on (ascii_of_nat 10) data) with
  | [] => Raised EmptyDataError
  | header :: lines =>
      Returned {| columns := split_on "," header;
                  rows := List.map (split_on ",") lines |}
  end.

Definition pad_left (n : nat) (s : string) : string :=
  String.concat "" (repeat " " (n - String.length s)) +:+ s.

Definition width (j : nat) (t : frame) : nat :=
  list_max (List.map (fun row => String.length (nth j row ""))
                     (columns t :: rows t)).

Definition render_row (t : frame) (row : list string) : string :=
  String.concat "  "
    (List.map (fun jc => pad_left (width (fst jc) t) (snd jc))
              (combine (seq 0 (List.length row)) row)).

(** Right-aligned columns, header first, no index column. *)
Definition to_string (t : frame) : string :=
  String.concat Py.newline (List.map (render_row t) (columns t :: rows t)).

Definition ServiceRequestError : Exception :=
  {| exn_class := "ServiceRequestError"; exn_msg := "Connection timed out" |}.

Definition RateLimitError : Exception :=
  {| exn_class := "RateLimitError"; exn_msg := "Rate limit reached" |}.

Definition is_DI_extract_text (ev : event) : bool :=
  match ev with DI_extract_text _ => true | _ => false end.

Definition is_temp_file (ev : event) : bool :=
  match ev with NamedTemporaryFile _ => true | _ => false end.

Definition secret_table (key : string) : option string :=
  if String.eqb key "VISION_ENDPOINT" then Some "https://vision.example"
  else if String.eqb key "VISION_KEY" then Some "vk"
  else if String.eqb key "PEZZO_API_KEY" then Some "pk"
  else if String.eqb key "PEZZO_PROJECT_ID" then Some "proj"
  else if String.eqb key "PEZZO_ENVIRONMENT" then Some "Production"
  else if String.eqb key "PEZZO_SERVER_URL" then Some "https://pezzo.example"
  else None.

(** Every collaborator works, except that the first text extraction of
    Document Intelligence in a session times out. *)
Definition world : services frame :=
  {| gettempdir := "/tmp";
     candidate_names := fun h n =>
       String.concat ""
         (repeat "a" (S (List.length (List.filter is_temp_file h) + n)));
     storage_failure := fun _ => None;
     di_new := fun _ _ => Returned tt;
     di_extract_text := fun h _ =>
       if existsb is_DI_extract_text h then Returned "PO 7: Widget x 5"
       else Raised ServiceRequestError;
     di_extract_tables := fun _ _ => Returned [];
     pd_parse_csv := parse_csv;
     df_to_string := to_string;
     openai_new := fun _ => Returned tt;
     connect_azure_open_ai := fun _ _ => Returned tt;
     secrets := secret_table;
     secrets_key_error := fun k =>
       {| exn_class := "KeyError"; exn_msg := "'" +:+ k +:+ "'" |};
     pezzo_new := fun _ _ _ _ _ => Returned tt;
     get_prompt := fun _ _ => Returned "Compare the two documents.";
     llm_invoke := fun _ _ => Returned "The documents agree.";
     str_content := fun c => "('" +:+ fst c +:+ "', [...])" |}.

(** The same world with a language model that is over quota. *)
Definition world_over_quota : services frame :=
  {| gettempdir := gettempdir world;
     candidate_names := candidate_names world;
     storage_failure := storage_failure world;
     di_new := di_new world;
     di_extract_text := di_extract_text world;
     di_extract_tables := di_extract_tables world;
     pd_parse_csv := pd_parse_csv world;
     df_to_string := df_to_string world;
     openai_new := openai_new world;
     connect_azure_open_ai := connect_azure_open_ai world;
     secrets := secrets world;
     secrets_key_error := secrets_key_error world;
     pezzo_new := pezzo_new world;
     get_prompt := get_prompt world;
     llm_invoke := fun _ _ => Raised RateLimitError;
     str_content := str_content world |}.

Definition fresh : machine frame :=
  {| session := initial_session; files := ∅; trace := [] |}.

Definition invoice_csv : uploaded_file :=
  {| name := "invoice.csv";
     getvalue := "item,qty" +:+ Py.newline +:+ "Widget,5" |}.

Definition empty_csv : uploaded_file :=
  {| name := "invoice.csv"; getvalue := "" |}.

Definition po_pdf : uploaded_file :=
  {| name := "PO-7.PDF"; getvalue := "%PDF-1.7 ..." |}.

Definition widget_frame : frame :=
  {| columns := ["item"; "qty"]; rows := [["Widget"; "5"]] |}.

(** A machine whose disk holds the two-line invoice. *)
Definition with_invoice_on_disk : machine frame :=
  {| session := initial_session;
     files := {[ "/tmp/tmpq3.csv" := getvalue invoice_csv ]};
     trace := [] |}.

(** The session after the invoice has been uploaded and extracted. *)
Definition after_invoice : machine frame :=
  snd (process_uploaded_file world invoice_csv "invoice" fresh).

Definition po_csv : uploaded_file :=
  {| name := "po.csv";
     getvalue := "item,qty" +:+ Py.newline +:+ "Widget,4" |}.

(** Both documents uploaded and extracted. *)
Definition both_ready : machine frame :=
  snd (process_uploaded_file world po_csv "purchase_order" after_invoice).

(** The invoice is extracted; the purchase order was uploaded as a PDF
    and its extraction timed out. *)
Definition after_failed_po : machine frame :=
  snd (process_uploaded_file world po_pdf "purchase_order" after_invoice).

(** The user has the empty CSV in the invoice uploader and clicks
    "Extract Invoice". *)
Definition click_extract_empty_invoice : ui_input :=
  {| invoice_file := Some empty_csv; extract_invoice_clicked := true;
     po_file := None; extract_po_clicked := false;
     show_debug_info := false; compare_clicked := false |}.

(** The user clicks "Compare Documents". *)
Definition click_compare : ui_input :=
  {| invoice_file := Some invoice_csv; extract_invoice_clicked := false;
     po_file := Some po_csv; extract_po_clicked := false;
     show_debug_info := false; compare_clicked := true |}.

(** Everything a run of the script has drawn, oldest first. *)
Definition drawn (before after : history) : list widget :=
  rev (omap (fun ev => match ev with Shown w => Some w | _ => None end)
            (firstn (List.length after - List.length before) after)).


(** [world] with other secrets and another answer of the disk. *)
Definition world_with (keys : string -> option string)
  (disk : history -> option Exception) : services frame :=
  {| gettempdir := gettempdir world;
     candidate_names := candidate_names world;
     storage_failure := disk;
     di_new := di_new world;
     di_extract_text := di_extract_text world;
     di_extract_tables := di_extract_tables world;
     pd_parse_csv := pd_parse_csv world;
     df_to_string := df_to_string world;
     openai_new := openai_new world;
     connect_azure_open_ai := connect_azure_open_ai world;
     secrets := keys;
     secrets_key_error := secrets_key_error world;
     pezzo_new := pezzo_new world;
     get_prompt := get_prompt world;
     llm_invoke := llm_invoke world;
     str_content := str_content world |}.


(** The project id of the prompt service is not configured. *)
Definition world_without_project_id : services frame :=
  world_with (fun k => if String.eqb k "PEZZO_PROJECT_ID" then None
                       else secret_table k)
             (fun _ => None).


(** The user has the two-line invoice in the uploader and clicks
    "Extract Invoice". *)
Definition click_extract_invoice : ui_input :=
  {| invoice_file := Some invoice_csv; extract_invoice_clicked := true;
     po_file := None; extract_po_clicked := false;
     show_debug_info := false; compare_clicked := false |}.


(** Both documents uploaded, both extractions failed. *)
Definition both_failed : machine frame :=
  snd (process_uploaded_file world po_pdf "purchase_order"
         (snd (process_uploaded_file world empty_csv "invoice" fresh))).

End Sample.

(** * Properties *)

(** ** Strings *)

Lemma lower_app (a b : string) :
  Py.lower (a +:+ b) = Py.lower a +:+ Py.lower b.
Proof.
  induction a as [|c a IH]; simpl; [reflexivity | now rewrite IH].
Qed.

Lemma lower_split (a b p : string) :
  Py.lower p = a +:+ b ->
  exists p1 p2, p = p1 +:+ p2 /\ Py.lower p1 = a /\ Py.lower p2 = b.
Proof.
  revert p. induction a as [|c a IH]; intros p H.
  - exists EmptyString, p. simpl in *. auto.
  - destruct p as [|c0 p]; simpl in H; [discriminate|].
    injection H as Hc Hp.
    destruct (IH _ Hp) as (p1 & p2 & -> & H1 & H2).
    exists (String c0 p1), p2. simpl. rewrite H1, Hc. auto.
Qed.

Lemma endswith_iff (s suffix : string) :
  Py.endswith s suffix = true <-> exists pre, s = pre +:+ suffix.
Proof.
  induction s as [|c s IH]; cbn [Py.endswith].
  - rewrite orb_false_r, String.eqb_eq. split.
    + intros <-. now exists EmptyString.
    + intros [[|c pre] H]; simpl in H; [auto | discriminate].
  - rewrite orb_true_iff, String.eqb_eq, IH. split.
    + intros [<- | [pre ->]]; [now exists EmptyString | now exists (String c pre)].
    + intros [[|c0 pre] H]; simpl in H; [now left | right].
      injection H as _ ->. now exists pre.
Qed.

(** [path.lower().endswith(ext)] is the case-insensitive suffix test. *)
Lemma endswith_lower_iff (p ext : string) :
  Py.endswith (Py.lower p) ext = true <-> ends_with_ci p ext.
Proof.
  rewrite endswith_iff. unfold ends_with_ci. split.
  - intros [pre H]. apply lower_split in H as (p1 & p2 & -> & _ & H2).
    now exists p1, p2.
  - intros (pre & suf & -> & <-). exists (Py.lower pre). apply lower_app.
Qed.

Example splitext_csv : Py.splitext "invoice.csv" = ("invoice", ".csv").
Proof. reflexivity. Qed.

Example splitext_last_dot : Py.splitext "a.tar.gz" = ("a.tar", ".gz").
Proof. reflexivity. Qed.

Example splitext_leading_dot : Py.splitext ".bashrc" = (".bashrc", "").
Proof. reflexivity. Qed.

Example splitext_dot_in_directory : Py.splitext "/a.b/c" = ("/a.b/c", "").
Proof. reflexivity. Qed.

Example basename_of_temp : Py.basename "/tmp/tmpq3.csv" = "tmpq3.csv".
Proof. reflexivity. Qed.

Example lower_mixed_case : Py.lower "PO-7.PDF" = "po-7.pdf".
Proof. reflexivity. Qed.

Example endswith_needs_the_dot : Py.endswith "pdf" ".pdf" = false.
Proof. reflexivity. Qed.

Example parse_two_lines :
  Sample.parse_csv (getvalue Sample.invoice_csv) = Returned Sample.widget_frame.
Proof. reflexivity. Qed.

Example render_two_lines :
  Sample.to_string Sample.widget_frame
  = "  item  qty" +:+ Py.newline +:+ "Widget    5".
Proof. reflexivity. Qed.

Lemma append_nonempty (a b : string) :
  b <> EmptyString -> a +:+ b <> EmptyString.
Proof. destruct a; simpl; [auto | discriminate]. Qed.

(** ** Running computations step by step *)

Section Steps.

Context {Table : Type}.
Variable R : machine Table -> machine Table -> Prop.
Context `{!PreOrder R}.

Lemma steps_ret {A} (a : A) : steps R (ret a).
Proof. intros m. simpl. reflexivity. Qed.

Lemma steps_raise {A} (e : Exception) : steps R (@raise Table A e).
Proof. intros m. simpl. reflexivity. Qed.

Lemma steps_get_session : steps R get_session.
Proof. intros m. simpl. reflexivity. Qed.

Lemma steps_bind {A B} (c : M A) (k : A -> M B) :
  steps R c -> (forall a, steps R (k a)) -> steps R (bind c k).
Proof.
  intros Hc Hk m. unfold bind. specialize (Hc m).
  destruct (c m) as [[a|e] m1]; simpl in *; [|exact Hc].
  etransitivity; [exact Hc | apply Hk].
Qed.

Lemma steps_try_except {A} (body : M A) (handler : Exception -> M A) :
  steps R body -> (forall e, steps R (handler e)) ->
  steps R (try_except body handler).
Proof.
  intros Hc Hk m. unfold try_except. specialize (Hc m).
  destruct (body m) as [[a|e] m1]; simpl in *; [exact Hc|].
  etransitivity; [exact Hc | apply Hk].
Qed.

Lemma steps_emit (ev : event) :
  (forall m, R m (with_trace (ev :: trace m) m)) -> steps R (emit ev).
Proof. intros H m. apply H. Qed.

Lemma steps_call {A} (ev : event) (reply : history -> outcome A) :
  (forall m, R m (with_trace (ev :: trace m) m)) -> steps R (call ev reply).
Proof. intros H m. apply H. Qed.

End Steps.

Section Relations.

Context {Table : Type}.

#[global] Instance only_adds_preorder (P : event -> bool) :
  PreOrder (@only_adds Table P).
Proof.
  split.
  - intros m. now exists [].
  - intros m1 m2 m3 (e1 & H1 & F1) (e2 & H2 & F2). exists (e2 ++ e1). split.
    + now rewrite H2, H1, app_assoc.
    + rewrite forallb_app, F1, F2. reflexivity.
Qed.

#[global] Instance same_store_preorder : PreOrder (@same_store Table).
Proof.
  split.
  - now intros m.
  - intros m1 m2 m3 [H1 H2] [H3 H4]. split; congruence.
Qed.

#[global] Instance same_role_preorder (r : role) : PreOrder (@same_role Table r).
Proof.
  split.
  - now intros m.
  - intros m1 m2 m3 [H1 H2] [H3 H4]. split; congruence.
Qed.

#[global] Instance same_paths_preorder : PreOrder (@same_paths Table).
Proof.
  split.
  - now intros m.
  - intros m1 m2 m3 (H1 & H2 & H3) (H4 & H5 & H6). repeat split; congruence.
Qed.

#[global] Instance keeps_consistent_preorder :
  PreOrder (@keeps_consistent Table).
Proof.
  split.
  - intros m H. exact H.
  - intros m1 m2 m3 H1 H2 H. auto.
Qed.

Lemma only_adds_event (P : event -> bool) (ev : event) (m : machine Table) :
  P ev = true -> only_adds P m (with_trace (ev :: trace m) m).
Proof. intros H. exists [ev]. simpl. now rewrite H. Qed.

Lemma only_adds_weaken (P Q : event -> bool) (m m' : machine Table) :
  (forall ev, P ev = true -> Q ev = true) ->
  only_adds P m m' -> only_adds Q m m'.
Proof.
  intros HPQ (evs & H & F). exists evs. split; [exact H|].
  rewrite forallb_forall in *. auto.
Qed.

Lemma same_store_event (ev : event) (m : machine Table) :
  same_store m (with_trace (ev :: trace m) m).
Proof. now split. Qed.

Lemma same_store_consistent (m m' : machine Table) :
  same_store m m' -> keeps_consistent m m'.
Proof. intros [H _]. unfold keeps_consistent. now rewrite H. Qed.

End Relations.

(** Break a computation into its statements. *)
Ltac tidy_step :=
  match goal with
  | |- PreOrder _ => typeclasses eauto
  | |- forall _, _ => intros ?
  | _ => idtac
  end.

Ltac split_steps :=
  repeat match goal with
    | |- steps _ (ret _) => apply steps_ret; tidy_step
    | |- steps _ (raise _) => apply steps_raise; tidy_step
    | |- steps _ get_session => apply steps_get_session; tidy_step
    | |- steps _ (bind _ _) => apply steps_bind; tidy_step
    | |- steps _ (try_except _ _) => apply steps_try_except; tidy_step
    | |- steps _ (if ?b then _ else _) => destruct b
    | |- steps _ (match ?x with _ => _ end) => destruct x
    end.

Ltac leaf_step :=
  match goal with
  | |- steps _ (emit _) => apply steps_emit; tidy_step
  | |- steps _ (call _ _) => apply steps_call; tidy_step
  end.

(** ** The extractors and [process_file] *)

Section Extraction.

Context {Table : Type} (sv : services Table).

Lemma extract_content_from_pdf_store (pdf_path : string) :
  steps same_store (extract_content_from_pdf sv pdf_path).
Proof.
  unfold extract_content_from_pdf, log_info, log_error.
  split_steps; leaf_step; apply same_store_event.
Qed.

Lemma extract_content_from_pdf_adds (pdf_path : string) :
  steps (only_adds is_extraction) (extract_content_from_pdf sv pdf_path).
Proof.
  unfold extract_content_from_pdf, log_info, log_error.
  split_steps; leaf_step; now apply only_adds_event.
Qed.

Lemma pd_read_csv_store (csv_path : string) :
  steps same_store (pd_read_csv sv csv_path).
Proof. intros m. apply same_store_event. Qed.

Lemma pd_read_csv_adds (csv_path : string) :
  steps (only_adds is_extraction) (pd_read_csv sv csv_path).
Proof. intros m. now apply only_adds_event. Qed.

Lemma extract_content_from_csv_store (csv_path : string) :
  steps same_store (extract_content_from_csv sv csv_path).
Proof.
  unfold extract_content_from_csv, log_info, log_error.
  split_steps;
    first [apply pd_read_csv_store | leaf_step; apply same_store_event].
Qed.

Lemma extract_content_from_csv_adds (csv_path : string) :
  steps (only_adds is_extraction) (extract_content_from_csv sv csv_path).
Proof.
  unfold extract_content_from_csv, log_info, log_error.
  split_steps;
    first [apply pd_read_csv_adds | leaf_step; now apply only_adds_event].
Qed.

Lemma extract_by_extension_store (file_path : string) :
  steps same_store (extract_by_extension sv file_path).
Proof.
  unfold extract_by_extension. split_steps;
    [apply extract_content_from_pdf_store | apply extract_content_from_csv_store].
Qed.

Lemma extract_by_extension_adds (file_path : string) :
  steps (only_adds is_extraction) (extract_by_extension sv file_path).
Proof.
  unfold extract_by_extension. split_steps;
    [apply extract_content_from_pdf_adds | apply extract_content_from_csv_adds].
Qed.

(** [process_file] decomposed: the call record, one run of the extractor
    chosen by extension, then either the assignment of the content or the
    error string. *)
Lemma process_file_run (file_path document_type : string) (m : machine Table) :
  let m0 := with_trace (Called_process_file file_path document_type :: trace m) m in
  match extract_by_extension sv file_path m0 with
  | (Returned c, m1) =>
      process_file sv file_path document_type m
      = (Returned (VContent c),
         with_session (set_content (role_of document_type) (Some c) (session m1)) m1)
  | (Raised e, m1) =>
      process_file sv file_path document_type m
      = (Returned (VStr ("Error: " +:+ str e)),
         with_trace (Logged ERROR ("Processing error: " +:+ str e) :: trace m1) m1)
  end.
Proof.
  intros m0. unfold process_file, bind, try_except, emit. fold m0.
  destruct (extract_by_extension sv file_path m0) as [[c|e] m1]; [|reflexivity].
  unfold role_of. now destruct (String.eqb document_type "invoice").
Qed.

Lemma process_file_total (file_path document_type : string) :
  total (process_file sv file_path document_type).
Proof.
  intros m. pose proof (process_file_run file_path document_type m) as H.
  simpl in H. destruct (extract_by_extension sv file_path _) as [[c|e] m1];
    rewrite H; eauto.
Qed.

Lemma process_file_session (file_path document_type : string) (m : machine Table) :
  let r := process_file sv file_path document_type m in
  files (snd r) = files m /\
  match fst r with
  | Returned (VContent c) =>
      session (snd r) = set_content (role_of document_type) (Some c) (session m)
  | Returned (VStr msg) =>
      session (snd r) = session m
      /\ exists e, msg = "Error: " +:+ str e
  | Raised _ => False
  end.
Proof.
  pose proof (process_file_run file_path document_type m) as H.
  pose proof (extract_by_extension_store file_path
                (with_trace (Called_process_file file_path document_type :: trace m) m))
    as [Hs Hf].
  simpl in *. destruct (extract_by_extension sv file_path _) as [[c|e] m1];
    rewrite H; simpl in *; rewrite Hs, Hf; eauto.
Qed.

Lemma process_file_trace (file_path document_type : string) (m : machine Table) :
  exists evs,
    trace (snd (process_file sv file_path document_type m))
    = evs ++ Called_process_file file_path document_type :: trace m
    /\ forallb is_extraction evs = true.
Proof.
  pose proof (process_file_run file_path document_type m) as H.
  pose proof (extract_by_extension_adds file_path
                (with_trace (Called_process_file file_path document_type :: trace m) m))
    as (evs & Ht & Hf).
  simpl in *. destruct (extract_by_extension sv file_path _) as [[c|e] m1];
    rewrite H; simpl in *; rewrite Ht.
  - now exists evs.
  - exists (Logged ERROR ("Processing error: " +:+ str e) :: evs). now simpl.
Qed.

Lemma process_file_paths (file_path document_type : string) :
  steps same_paths (process_file sv file_path document_type).
Proof.
  intros m. pose proof (process_file_session file_path document_type m) as [Hf H].
  simpl in *. unfold same_paths. rewrite Hf.
  destruct (fst (process_file sv file_path document_type m)) as [[c|msg]|e];
    [| destruct H as [H _] | contradiction]; rewrite H; [|auto].
  now destruct (role_of document_type).
Qed.

Lemma process_file_other (file_path document_type : string) :
  steps (same_role (other (role_of document_type)))
        (process_file sv file_path document_type).
Proof.
  intros m. pose proof (process_file_session file_path document_type m) as [Hf H].
  simpl in *. unfold same_role.
  destruct (fst (process_file sv file_path document_type m)) as [[c|msg]|e];
    [| destruct H as [H _] | contradiction]; rewrite H; [|auto].
  now destruct (role_of document_type).
Qed.

Lemma process_file_adds (file_path document_type : string) :
  steps (only_adds (fun ev => is_process_file_call ev || is_extraction ev))
        (process_file sv file_path document_type).
Proof.
  intros m. destruct (process_file_trace file_path document_type m) as (evs & H & F).
  exists (evs ++ [Called_process_file file_path document_type]). split.
  - now rewrite H, <- app_assoc.
  - rewrite forallb_app. simpl. rewrite andb_true_r.
    rewrite forallb_forall in *. intros ev Hev. rewrite (F ev Hev).
    apply orb_true_r.
Qed.

End Extraction.

(** ** Upload *)

Section Upload.

Context {Table : Type} (sv : services Table).

Lemma first_unused_spec (cands : nat -> string) (dir suffix : string)
  (fs : gmap string string) (attempts n : nat) (p : string) :
  first_unused cands dir suffix fs n attempts = Some p ->
  fs !! p = None /\ p <> EmptyString.
Proof.
  revert n. induction attempts as [|k IH]; intros n; simpl; [discriminate|].
  destruct (fs !! (dir +:+ "/tmp" +:+ cands n +:+ suffix)) eqn:E.
  - apply IH.
  - intros [= <-]. split; [exact E|]. now apply append_nonempty.
Qed.

(** The scratch file: a new, non-empty name holding the uploaded bytes;
    on failure nothing is written.  The session is not touched. *)
Lemma named_temporary_file_spec (suffix data : string) (m : machine Table) :
  let r := named_temporary_file sv suffix data m in
  session (snd r) = session m
  /\ trace (snd r) = NamedTemporaryFile suffix :: trace m
  /\ match fst r with
     | Returned temp_path =>
         temp_path <> EmptyString
         /\ files m !! temp_path = None
         /\ files (snd r) = <[temp_path := data]> (files m)
     | Raised _ => files (snd r) = files m
     end.
Proof.
  unfold named_temporary_file. generalize TMP_MAX. intros attempts.
  destruct (storage_failure sv (trace m)); [now cbn|].
  destruct (first_unused (candidate_names sv (trace m)) (gettempdir sv) suffix
              (files m) 0 attempts) as [p|] eqn:E; [|now cbn].
  apply first_unused_spec in E as [E1 E2]. now cbn.
Qed.

Lemma save_upload_run (uploaded : uploaded_file) (document_type : string)
  (m : machine Table) :
  save_upload sv uploaded document_type m
  = named_temporary_file sv
      (Py.lower (snd (Py.splitext (name uploaded)))) (getvalue uploaded)
      (with_trace
         (Shown (status_text "Saving file...") :: Shown st_empty
          :: Shown (st_progress 0)
          :: Shown (st_write ("Processing " +:+ document_type +:+ ": "
                              +:+ name uploaded))
          :: trace m) m).
Proof. reflexivity. Qed.

(** The [try] statement decomposed: two widgets, one run of
    [process_file], four widgets, the assignment of the path.  The handler
    does not run. *)
Lemma extract_upload_run (uploaded : uploaded_file)
  (document_type temp_path : string) (m : machine Table) :
  let m2 :=
    with_trace (Shown (status_text "Extracting data...")
                :: Shown (st_progress 20) :: trace m) m in
  exists v m3,
    process_file sv temp_path document_type m2 = (Returned v, m3)
    /\ extract_upload sv uploaded document_type temp_path m
       = (Returned (Some v, temp_path),
          {| session := set_path (role_of document_type) (Some temp_path)
                          (session m3);
             files := files m3;
             trace := Shown (st_markdown "Extracted Successfully")
                      :: Shown (st_expander ("Results: " +:+ name uploaded))
                      :: Shown (status_text "Done ✅")
                      :: Shown (st_progress 100) :: trace m3 |}).
Proof.
  intros m2. destruct (process_file_total sv temp_path document_type m2) as [v Hv].
  destruct (process_file sv temp_path document_type m2) as [o m3] eqn:E.
  simpl in Hv. subst o. exists v, m3. split; [reflexivity|].
  unfold extract_upload, try_except, bind, show, emit.
  unfold m2, with_trace in *. cbn [trace session files] in *. rewrite E.
  unfold role_of. now destruct (String.eqb document_type "invoice").
Qed.

Lemma extract_upload_other (uploaded : uploaded_file)
  (document_type temp_path : string) :
  steps (same_role (other (role_of document_type)))
        (extract_upload sv uploaded document_type temp_path).
Proof.
  intros m.
  destruct (extract_upload_run uploaded document_type temp_path m)
    as (v & m3 & Hp & ->).
  pose proof (process_file_other sv temp_path document_type
    (with_trace (Shown (status_text "Extracting data...")
                 :: Shown (st_progress 20) :: trace m) m)) as H.
  rewrite Hp in H. destruct H as [H1 H2]. simpl in *.
  unfold same_role. simpl. rewrite <- H1, <- H2.
  now destruct (role_of document_type).
Qed.

Lemma save_upload_store_session (uploaded : uploaded_file)
  (document_type : string) (m : machine Table) :
  session (snd (save_upload sv uploaded document_type m)) = session m.
Proof.
  rewrite save_upload_run.
  now destruct (named_temporary_file_spec
    (Py.lower (snd (Py.splitext (name uploaded)))) (getvalue uploaded)
    (with_trace
         (Shown (status_text "Saving file...") :: Shown st_empty
          :: Shown (st_progress 0)
          :: Shown (st_write ("Processing " +:+ document_type +:+ ": "
                              +:+ name uploaded))
          :: trace m) m)) as [H _].
Qed.

Lemma process_uploaded_file_other (uploaded : uploaded_file)
  (document_type : string) :
  steps (same_role (other (role_of document_type)))
        (process_uploaded_file sv uploaded document_type).
Proof.
  intros m. unfold process_uploaded_file, bind.
  pose proof (save_upload_store_session uploaded document_type m) as Hs.
  destruct (save_upload sv uploaded document_type m) as [[tp|e] m1]; simpl in *.
  - pose proof (extract_upload_other uploaded document_type tp m1) as [H1 H2].
    unfold same_role. now rewrite H1, H2, Hs.
  - unfold same_role. now rewrite Hs.
Qed.

End Upload.

(** Reading an outside failure off the history of the comparison steps. *)
Ltac use_replies Hfail :=
  cbn [failure_of raised] in Hfail;
  repeat match goal with
    | E : ?x = Returned _ |- _ =>
        match type of Hfail with context [x] => rewrite E in Hfail end
    | E : ?x = Raised _ |- _ =>
        match type of Hfail with context [x] => rewrite E in Hfail end
    | E : secrets _ _ = _ |- _ => rewrite E in Hfail
    end;
  cbn [raised] in Hfail.

Ltac walk_back H Hlen Hfail :=
  match type of H with
  | _ :: _ = ?later ++ _ :: _ =>
      let rest := fresh "later" in
      destruct later as [|? rest]; cbn [app] in H;
      [ injection H as ? ?; subst; use_replies Hfail
      | injection H as ? H; walk_back H Hlen Hfail ]
  | _ =>
      exfalso; apply (f_equal (@length event)) in H;
      rewrite length_app in H; cbn [length] in H; lia
  end.

(** ** Comparison *)

Section Comparison.

Context {Table : Type} (sv : services Table).

Lemma secret_store (key : string) : steps same_store (secret sv key).
Proof. intros m. apply same_store_event. Qed.

Lemma secret_adds (key : string) :
  steps (only_adds is_comparison) (secret sv key).
Proof. intros m. now apply only_adds_event. Qed.

Lemma request_summary_store : steps same_store (request_summary sv).
Proof.
  unfold request_summary.
  split_steps; first [apply secret_store | leaf_step; apply same_store_event].
Qed.

Lemma request_summary_adds :
  steps (only_adds is_comparison) (request_summary sv).
Proof.
  unfold request_summary.
  split_steps; first [apply secret_adds | leaf_step; now apply only_adds_event].
Qed.

(** Lines 76-79 are the extraction on demand for the invoice, then for
    the purchase order; the step itself never raises. *)
Lemma reextract_missing_run (m : machine Table) :
  reextract_missing sv m
  = (Returned tt,
     after_reextract sv PurchaseOrder (after_reextract sv Invoice m)).
Proof.
  assert (PO : forall m1 : machine Table,
    match po_path (session m1) with
    | Some p =>
        if truthy (po_path (session m1)) && is_None (po_content (session m1))
        then bind (process_file sv p "purchase_order") (fun _ => ret tt)
        else ret tt
    | None => ret tt
    end m1 = (Returned tt, after_reextract sv PurchaseOrder m1)).
  { intros m1. unfold after_reextract, due, bind, ret.
    cbn [path_of content_of document_type_of].
    destruct (po_path (session m1)) as [q|]; [|reflexivity].
    destruct (truthy (Some q) && is_None (po_content (session m1)));
      [|reflexivity].
    destruct (process_file_total sv q "purchase_order" m1) as [w Hw].
    destruct (process_file sv q "purchase_order" m1) as [o m2].
    cbn [fst snd] in *. now subst o. }
  unfold reextract_missing. unfold bind at 1. unfold get_session at 1.
  unfold bind at 1. unfold after_reextract at 2. unfold due.
  cbn [path_of content_of document_type_of].
  destruct (invoice_path (session m)) as [p|].
  - destruct (truthy (Some p) && is_None (invoice_content (session m))).
    + unfold bind at 1.
      destruct (process_file_total sv p "invoice" m) as [v Hv].
      destruct (process_file sv p "invoice" m) as [o m1].
      cbn [fst snd] in *. subst o. unfold ret at 1. apply PO.
    + unfold ret at 1. apply PO.
  - unfold ret at 1. apply PO.
Qed.

Lemma after_reextract_ready (r : role) (m : machine Table) :
  content_of r (session m) <> None -> after_reextract sv r m = m.
Proof.
  intros H. unfold after_reextract, due.
  destruct (path_of r (session m)); [|reflexivity].
  destruct (content_of r (session m)); [|contradiction].
  now rewrite andb_false_r.
Qed.

(** Lines 72-99 in one equation: after the extraction on demand either
    the fixed error string is returned, or the comparison steps run. *)
Lemma generate_summary_run (invoice_path_arg po_path_arg : option string)
  (m : machine Table) :
  let m1 := snd (reextract_missing sv m) in
  generate_summary sv invoice_path_arg po_path_arg m
  = if ready (session m1) then request_summary sv m1
    else (Returned precondition_error, m1).
Proof.
  rewrite reextract_missing_run. cbn [snd].
  unfold generate_summary, bind at 1 2, get_session at 1.
  destruct (is_None (invoice_content (session m))
            || is_None (po_content (session m))) eqn:E.
  - clear E. unfold bind, get_session, ret. rewrite reextract_missing_run.
    unfold ready.
    now destruct (is_None _ || is_None _).
  - apply orb_false_elim in E as [E1 E2].
    rewrite (after_reextract_ready Invoice m),
            (after_reextract_ready PurchaseOrder m).
    + unfold ret, ready. now rewrite E1, E2.
    + simpl. now destruct (po_content (session m)).
    + simpl. now destruct (invoice_content (session m)).
Qed.

(** In the comparison steps an outside call that fails is the last thing
    that happens, and its exception is the outcome. *)
Lemma request_summary_failure (m1 : machine Table) (later : history)
  (ev : event) (h : history) (e : Exception) :
  trace (snd (request_summary sv m1)) = later ++ ev :: h ->
  length (trace m1) <= length h ->
  failure_of sv h ev = Some e ->
  later = [] /\ fst (request_summary sv m1) = Raised e.
Proof.
  unfold request_summary, bind, secret, call, get_session.
  cbn [with_trace trace session files fst snd].
  intros H Hlen Hfail.
  repeat case_match; cbn [with_trace trace session files fst snd] in *.
  all: simplify_eq.
  all: walk_back H Hlen Hfail; try discriminate.
  all: try (split; [reflexivity | congruence]).
  all: split; [reflexivity|].
  all: match goal with |- ?x = _ => destruct x end;
       cbn [raised] in Hfail; congruence.
Qed.

End Comparison.

(** ** Consistency of the session *)

Section Consistency.

Context {Table : Type} (sv : services Table).

Lemma truthy_nonempty (p : string) : p <> EmptyString -> truthy (Some p) = true.
Proof. intros H. simpl. apply negb_true_iff. now apply String.eqb_neq. Qed.

Lemma role_of_document_type_of (r : role) : role_of (document_type_of r) = r.
Proof. now destruct r. Qed.

Lemma consistent_initial : consistent (@initial_session Table).
Proof. intros [] H; now simpl in H. Qed.

Lemma consistent_set_content (r : role) (c : option content)
  (s : session_state Table) :
  consistent s -> truthy (path_of r s) = true -> consistent (set_content r c s).
Proof.
  intros Hs Hp r0 H0. specialize (Hs r0).
  destruct r, r0; simpl in *; auto.
Qed.

Lemma consistent_set_path (r : role) (p : string) (s : session_state Table) :
  consistent s -> p <> EmptyString -> consistent (set_path r (Some p) s).
Proof.
  intros Hs Hp r0 H0. specialize (Hs r0). apply truthy_nonempty in Hp.
  destruct r, r0; simpl in *; auto.
Qed.

Lemma consistent_set_both (r : role) (c : option content) (p : string)
  (s : session_state Table) :
  consistent s -> p <> EmptyString ->
  consistent (set_path r (Some p) (set_content r c s)).
Proof.
  intros Hs Hp r0 H0. specialize (Hs r0). apply truthy_nonempty in Hp.
  destruct r, r0; simpl in *; auto.
Qed.

Lemma process_uploaded_file_consistent (uploaded : uploaded_file)
  (document_type : string) :
  steps keeps_consistent (process_uploaded_file sv uploaded document_type).
Proof.
  intros m Hc. unfold process_uploaded_file, bind. rewrite save_upload_run.
  match goal with
  | |- context [named_temporary_file sv ?sfx ?data ?m0] =>
      pose proof (named_temporary_file_spec sv sfx data m0) as (Hs & _ & Hr);
      destruct (named_temporary_file sv sfx data m0) as [[tp|e] m1]
  end; cbn [fst snd with_trace session] in *.
  - destruct Hr as (Hne & _ & _).
    destruct (extract_upload_run sv uploaded document_type tp m1)
      as (v & m3 & Hp & ->). cbn [snd session].
    pose proof (process_file_session sv tp document_type
      (with_trace (Shown (status_text "Extracting data...")
                   :: Shown (st_progress 20) :: trace m1) m1)) as [_ H].
    rewrite Hp in H. cbn [fst snd with_trace session] in H. rewrite Hs in H.
    destruct v as [c|msg].
    + rewrite H. now apply consistent_set_both.
    + destruct H as [-> _]. now apply consistent_set_path.
  - now rewrite Hs.
Qed.

Lemma after_reextract_paths (r : role) (m : machine Table) :
  same_paths m (after_reextract sv r m).
Proof.
  unfold after_reextract. destruct (due r (session m)); [|reflexivity].
  apply process_file_paths.
Qed.

Lemma after_reextract_other (r : role) (m : machine Table) :
  same_role (other r) m (after_reextract sv r m).
Proof.
  unfold after_reextract. destruct (due r (session m)) as [p|]; [|reflexivity].
  pose proof (process_file_other sv p (document_type_of r) m) as H.
  now rewrite role_of_document_type_of in H.
Qed.

Lemma after_reextract_adds (r : role) (m : machine Table) :
  only_adds (fun ev => is_process_file_call ev || is_extraction ev)
            m (after_reextract sv r m).
Proof.
  unfold after_reextract. destruct (due r (session m)); [|reflexivity].
  apply process_file_adds.
Qed.

Lemma due_truthy (r : role) (s : session_state Table) (p : string) :
  due r s = Some p ->
  path_of r s = Some p /\ truthy (path_of r s) = true /\ content_of r s = None.
Proof.
  unfold due. destruct (path_of r s) as [q|]; [|discriminate].
  destruct (truthy (Some q)) eqn:Et; [|discriminate].
  destruct (content_of r s); simpl; [discriminate|].
  now intros [= ->].
Qed.

Lemma after_reextract_consistent (r : role) (m : machine Table) :
  keeps_consistent m (after_reextract sv r m).
Proof.
  intros Hc. unfold after_reextract.
  destruct (due r (session m)) as [p|] eqn:E; [|exact Hc].
  apply due_truthy in E as (_ & Ht & _).
  pose proof (process_file_session sv p (document_type_of r) m) as [_ H].
  cbn zeta in H. rewrite role_of_document_type_of in H.
  destruct (fst (process_file sv p (document_type_of r) m)) as [[c|msg]|e];
    [| destruct H as [H _] | contradiction]; rewrite H; [|exact Hc].
  now apply consistent_set_content.
Qed.

Lemma generate_summary_consistent (invoice_path_arg po_path_arg : option string) :
  steps keeps_consistent (generate_summary sv invoice_path_arg po_path_arg).
Proof.
  intros m. rewrite generate_summary_run, reextract_missing_run. cbn [snd].
  assert (H : keeps_consistent m
    (after_reextract sv PurchaseOrder (after_reextract sv Invoice m))).
  { etransitivity; apply after_reextract_consistent. }
  destruct (ready _); [|exact H].
  etransitivity; [exact H|].
  apply same_store_consistent, request_summary_store.
Qed.

Lemma show_store (w : widget) : steps same_store (@show Table w).
Proof. intros m. apply same_store_event. Qed.

Lemma main_consistent (inp : ui_input) : steps keeps_consistent (main sv inp).
Proof.
  unfold main.
  split_steps;
    first [ apply process_uploaded_file_consistent
          | apply generate_summary_consistent
          | intros m; apply same_store_consistent, show_store ].
Qed.

(** Whatever the user does, content is only ever present for a role whose
    path is set. *)
Lemma reachable_consistent (m : machine Table) :
  reachable sv m -> consistent (session m).
Proof.
  induction 1 as [fs|m inp _ IH].
  - apply consistent_initial.
  - now apply main_consistent.
Qed.

Lemma absent_path_absent_content (r : role) (m : machine Table) :
  consistent (session m) ->
  path_of r (session m) = None ->
  content_of r
    (session (after_reextract sv PurchaseOrder (after_reextract sv Invoice m)))
  = None.
Proof.
  intros Hcons Hpath.
  assert (Hc : content_of r (session m) = None).
  { destruct (content_of r (session m)) eqn:E; [|reflexivity].
    specialize (Hcons r). rewrite E, Hpath in Hcons.
    discriminate (Hcons ltac:(discriminate)). }
  destruct r.
  - assert (E : after_reextract sv Invoice m = m).
    { unfold after_reextract, due. now rewrite Hpath. }
    rewrite E.
    destruct (after_reextract_other PurchaseOrder m) as [H _].
    cbn [other] in H. now rewrite H.
  - destruct (after_reextract_other Invoice m) as [H1 H2]. cbn [other] in *.
    assert (E : after_reextract sv PurchaseOrder (after_reextract sv Invoice m)
                = after_reextract sv Invoice m).
    { unfold after_reextract at 1. unfold due. now rewrite H2, Hpath. }
    now rewrite E, H1.
Qed.

(** With one content missing (and its path set) and the other content
    there, the extraction on demand is one run of [process_file], for the
    role whose content is missing. *)
Lemma reextract_only_missing (r : role) (p : string) (m : machine Table) :
  path_of r (session m) = Some p ->
  truthy (Some p) = true ->
  content_of r (session m) = None ->
  content_of (other r) (session m) <> None ->
  snd (reextract_missing sv m)
  = snd (process_file sv p (document_type_of r) m).
Proof.
  intros Hp Ht Hc Ho. rewrite reextract_missing_run. cbn [snd].
  assert (D : due r (session m) = Some p).
  { unfold due. now rewrite Hp, Ht, Hc. }
  destruct r; cbn [other document_type_of] in *.
  - assert (E : after_reextract sv Invoice m
                = snd (process_file sv p "invoice" m)).
    { unfold after_reextract. now rewrite D. }
    rewrite E. apply after_reextract_ready.
    pose proof (process_file_other sv p (document_type_of Invoice) m) as H.
    rewrite role_of_document_type_of in H. destruct H as [H _].
    cbn [other content_of document_type_of] in H. cbn [content_of].
    now rewrite H.
  - rewrite (after_reextract_ready sv Invoice m Ho).
    unfold after_reextract. now rewrite D.
Qed.

Lemma filter_none (P Q : event -> bool) (evs : history) :
  (forall ev, P ev = true -> Q ev = false) ->
  forallb P evs = true -> List.filter Q evs = [].
Proof.
  intros HPQ. induction evs as [|ev evs IH]; cbn [forallb List.filter];
    [reflexivity|].
  intros [H1 H2]%andb_true_iff. now rewrite (HPQ _ H1), IH.
Qed.

End Consistency.

(** * Workflow properties *)

Section Workflow.

Context {Table : Type} (sv : services Table).

Lemma not_pdf_and_csv (s : string) :
  Py.endswith s ".pdf" = true -> Py.endswith s ".csv" = true -> False.
Proof.
  induction s as [|c s IH]; cbn [Py.endswith].
  - now rewrite orb_false_r.
  - rewrite !orb_true_iff, !String.eqb_eq.
    intros [H1|H1] [H2|H2]; auto.
    + congruence.
    + injection H1 as _ ->. vm_compute in H2. discriminate.
    + injection H2 as _ ->. vm_compute in H1. discriminate.
Qed.

(** C5.  The extractor is chosen by a case-insensitive suffix test on the
    path: a path ending in [.pdf] in any letter case is handed to the PDF
    extractor, a path ending in [.csv] to the CSV extractor, and for any
    other path a [ValueError] "Unsupported file format" is raised at once:
    the machine is unchanged, so no extractor has been called, and
    [process_file] turns the exception into its error string after
    nothing but its own log line. *)
Theorem dispatch_on_extension (file_path : string) :
  (ends_with_ci file_path ".pdf" ->
   extract_by_extension sv file_path = extract_content_from_pdf sv file_path)
  /\ (ends_with_ci file_path ".csv" ->
      extract_by_extension sv file_path = extract_content_from_csv sv file_path)
  /\ (~ ends_with_ci file_path ".pdf" -> ~ ends_with_ci file_path ".csv" ->
      forall (document_type : string) (m : machine Table),
        let msg := "Unsupported file format: " +:+ snd (Py.splitext file_path) in
        extract_by_extension sv file_path m = (Raised (ValueError msg), m)
        /\ process_file sv file_path document_type m
           = (Returned (VStr ("Error: " +:+ msg)),
              with_trace (Logged ERROR ("Processing error: " +:+ msg)
                          :: Called_process_file file_path document_type
                          :: trace m) m)).
Proof.
  repeat split.
  - intros H. apply endswith_lower_iff in H.
    unfold extract_by_extension. now rewrite H.
  - intros H. apply endswith_lower_iff in H.
    unfold extract_by_extension. rewrite H.
    destruct (Py.endswith (Py.lower file_path) ".pdf") eqn:E; [|reflexivity].
    destruct (not_pdf_and_csv _ E H).
  - rewrite <- endswith_lower_iff in H, H0.
    unfold extract_by_extension.
    destruct (Py.endswith (Py.lower file_path) ".pdf"); [now destruct H|].
    destruct (Py.endswith (Py.lower file_path) ".csv"); [now destruct H0|].
    reflexivity.
  - rewrite <- endswith_lower_iff in H, H0.
    pose proof (process_file_run sv file_path document_type m) as R.
    cbn zeta in R. unfold extract_by_extension in R.
    destruct (Py.endswith (Py.lower file_path) ".pdf"); [now destruct H|].
    destruct (Py.endswith (Py.lower file_path) ".csv"); [now destruct H0|].
    exact R.
Qed.

(** C6.  For a CSV file that parses, [extract_content_from_csv] returns
    the pair of the table rendered as text and the one-element list
    holding the table; it logs the file's base name and reads the file
    once. *)
Theorem csv_extraction_result (csv_path data : string) (df : Table)
  (m : machine Table) :
  files m !! csv_path = Some data ->
  pd_parse_csv sv data = Returned df ->
  extract_content_from_csv sv csv_path m
  = (Returned (df_to_string sv df, [df]),
     with_trace (Pandas_read_csv csv_path
                 :: Logged INFO ("Extracting from CSV: " +:+ Py.basename csv_path)
                 :: trace m) m).
Proof.
  intros Hfile Hparse.
  unfold extract_content_from_csv, try_except, bind, pd_read_csv, log_info, emit.
  cbn [with_trace files trace session]. now rewrite Hfile, Hparse.
Qed.

(** C8.  Whatever the upload and however it ends, the path and the
    content of the other role are the same after [process_uploaded_file]
    as before. *)
Theorem upload_leaves_other_role (uploaded : uploaded_file)
  (document_type : string) (m : machine Table) :
  let m' := snd (process_uploaded_file sv uploaded document_type m) in
  let r := other (role_of document_type) in
  path_of r (session m') = path_of r (session m)
  /\ content_of r (session m') = content_of r (session m).
Proof.
  destruct (process_uploaded_file_other sv uploaded document_type m) as [Hc Hp].
  now split.
Qed.

(** C9.  [process_file] never raises: it returns the content pair or a
    string that starts with "Error: ".  Hence, once the scratch file has
    been written, [process_uploaded_file] returns normally with that
    result, the handler with [st.error] has not run, and the path of the
    new file is stored for the role. *)
Theorem process_file_never_raises (document_type : string) :
  (forall (file_path : string) (m : machine Table),
     exists v, fst (process_file sv file_path document_type m) = Returned v
       /\ ((exists c, v = VContent c)
           \/ (exists e, v = VStr ("Error: " +:+ str e))))
  /\ (forall (uploaded : uploaded_file) (temp_path : string)
        (m m1 : machine Table),
        save_upload sv uploaded document_type m = (Returned temp_path, m1) ->
        exists v m2,
          process_uploaded_file sv uploaded document_type m
          = (Returned (Some v, temp_path), m2)
          /\ path_of (role_of document_type) (session m2) = Some temp_path
          /\ only_adds (fun ev => negb (is_st_error ev)) m1 m2).
Proof.
  split.
  - intros file_path m.
    pose proof (process_file_session sv file_path document_type m) as [_ H].
    cbn zeta in H.
    destruct (fst (process_file sv file_path document_type m)) as [[c|msg]|e];
      [eauto | | contradiction].
    destruct H as (_ & e & ->). eauto.
  - intros uploaded temp_path m m1 Hsave.
    destruct (extract_upload_run sv uploaded document_type temp_path m1)
      as (v & m3 & Hp & Hrun).
    eexists v, _. unfold process_uploaded_file, bind. rewrite Hsave.
    split; [exact Hrun|]. split.
    + cbn [session]. now destruct (role_of document_type).
    + destruct (process_file_trace sv temp_path document_type
        (with_trace (Shown (status_text "Extracting data...")
                     :: Shown (st_progress 20) :: trace m1) m1))
        as (evs & Ht & Hev).
      rewrite Hp in Ht. cbn [snd with_trace trace] in Ht.
      eexists (_ :: _ :: _ :: _ :: evs ++ [_; _; _]). cbn [trace]. split.
      * rewrite Ht. cbn [app]. now rewrite <- app_assoc.
      * cbn [forallb is_st_error negb andb]. rewrite forallb_app.
        cbn [forallb is_st_error negb andb]. rewrite andb_true_r.
        rewrite forallb_forall in *. intros ev Hin. specialize (Hev ev Hin).
        now destruct ev as [| | | | | | | | | | | | | []].
Qed.

(** C10.  [generate_summary] does not look at its two arguments: called
    on the same machine with any two pairs of arguments it returns the
    same result and leaves the same machine. *)
Theorem generate_summary_ignores_arguments
  (invoice_path_arg po_path_arg invoice_path_arg' po_path_arg' : option string)
  (m : machine Table) :
  generate_summary sv invoice_path_arg po_path_arg m
  = generate_summary sv invoice_path_arg' po_path_arg' m.
Proof. reflexivity. Qed.

(** C1, as the code has it.  There is no reset: after
    [process_uploaded_file] the content of the role is the new content
    when extraction succeeded, and is what it was before the upload when
    extraction failed (so it is absent only if it was absent before); when
    the scratch file could not be written the session is unchanged. *)
Theorem upload_content_effect (uploaded : uploaded_file)
  (document_type : string) (m : machine Table) :
  let r := process_uploaded_file sv uploaded document_type m in
  let role := role_of document_type in
  match fst r with
  | Returned (Some (VContent c), _) =>
      content_of role (session (snd r)) = Some c
  | Returned (Some (VStr _), _) =>
      content_of role (session (snd r)) = content_of role (session m)
  | Returned (None, _) => False
  | Raised _ => session (snd r) = session m
  end.
Proof.
  cbn zeta. unfold process_uploaded_file, bind.
  pose proof (save_upload_store_session sv uploaded document_type m) as Hs.
  destruct (save_upload sv uploaded document_type m) as [[tp|e] m1];
    cbn [fst snd] in *; [|exact Hs].
  destruct (extract_upload_run sv uploaded document_type tp m1)
    as (v & m3 & Hp & ->). cbn [fst snd session].
  pose proof (process_file_session sv tp document_type
    (with_trace (Shown (status_text "Extracting data...")
                 :: Shown (st_progress 20) :: trace m1) m1)) as [_ H].
  rewrite Hp in H. cbn [fst snd with_trace session] in H. rewrite Hs in H.
  destruct v as [c|msg].
  - rewrite H. now destruct (role_of document_type).
  - destruct H as [-> _]. now destruct (role_of document_type).
Qed.

(** C3.  If a content is still missing after the extraction on demand, and
    in particular whenever, in a session the script can be in, a path has
    never been stored, [generate_summary] returns the fixed error string
    right after that step: nothing of the language-model connector, the
    secrets or the prompt service has been touched. *)
Theorem compare_without_content_stops
  (invoice_path_arg po_path_arg : option string) (m : machine Table) :
  let m1 := snd (reextract_missing sv m) in
  (exists r, content_of r (session m1) = None)
  \/ (reachable sv m /\ exists r, path_of r (session m) = None) ->
  generate_summary sv invoice_path_arg po_path_arg m
  = (Returned precondition_error, m1)
  /\ only_adds (fun ev => negb (is_comparison ev)) m m1.
Proof.
  intros m1 H.
  assert (Habs : exists r, content_of r (session m1) = None).
  { destruct H as [H | (Hreach & r & Hp)]; [exact H|].
    exists r. unfold m1. rewrite reextract_missing_run. cbn [snd].
    apply absent_path_absent_content; [|exact Hp].
    now apply (reachable_consistent sv). }
  clear H. split.
  - rewrite generate_summary_run. fold m1.
    assert (E : ready (session m1) = false).
    { destruct Habs as [[] Hr]; unfold ready; cbn [content_of] in Hr;
        rewrite Hr; cbn [is_None orb negb]; [reflexivity|].
      now rewrite orb_true_r. }
    now rewrite E.
  - unfold m1. rewrite reextract_missing_run. cbn [snd].
    etransitivity;
      (eapply only_adds_weaken; [|apply after_reextract_adds]);
      now intros [].
Qed.

(** C4.  With both paths set, one content missing and the other there,
    [generate_summary] runs [process_file] exactly once, on the path and
    with the document type of the role whose content is missing; the
    session it leaves is the one left by that fresh run, whatever earlier
    attempts did. *)
Theorem compare_extracts_missing_role_once
  (invoice_path_arg po_path_arg : option string) (m : machine Table)
  (r : role) (p : string) :
  path_of r (session m) = Some p ->
  truthy (Some p) = true ->
  truthy (path_of (other r) (session m)) = true ->
  content_of r (session m) = None ->
  content_of (other r) (session m) <> None ->
  let m' := snd (generate_summary sv invoice_path_arg po_path_arg m) in
  (exists evs,
     trace m' = evs ++ trace m
     /\ List.filter is_process_file_call evs
        = [Called_process_file p (document_type_of r)])
  /\ session m' = session (snd (process_file sv p (document_type_of r) m)).
Proof.
  intros Hp Ht _ Hc Ho m'. unfold m'. rewrite generate_summary_run.
  rewrite (reextract_only_missing sv r p m Hp Ht Hc Ho).
  set (mp := snd (process_file sv p (document_type_of r) m)).
  destruct (process_file_trace sv p (document_type_of r) m) as (evs & Hevs & Fevs).
  fold mp in Hevs.
  assert (Fx : List.filter is_process_file_call evs = []).
  { apply (filter_none is_extraction); [now intros [] | exact Fevs]. }
  destruct (ready (session mp)).
  - destruct (request_summary_store sv mp) as [Hs _].
    destruct (request_summary_adds sv mp) as (cmp & Hcmp & Fcmp).
    split; [|exact Hs].
    exists (cmp ++ evs ++ [Called_process_file p (document_type_of r)]). split.
    + rewrite Hcmp, Hevs. now rewrite <- !app_assoc.
    + rewrite !List.filter_app, Fx.
      rewrite (filter_none is_comparison _ cmp); [reflexivity | now intros [] | exact Fcmp].
  - cbn [snd]. split; [|reflexivity].
    exists (evs ++ [Called_process_file p (document_type_of r)]). split.
    + rewrite Hevs. now rewrite <- app_assoc.
    + now rewrite List.filter_app, Fx.
Qed.

(** C7.  Once both contents are there after the extraction on demand, any
    call of the comparison steps (connector, secrets, prompt service,
    language model) that fails is the last event of [generate_summary]
    (nothing is retried or run after it), and [generate_summary] raises
    the very exception of that call. *)
Theorem comparison_failure_propagates
  (invoice_path_arg po_path_arg : option string) (m : machine Table)
  (later : history) (ev : event) (h : history) (e : Exception) :
  let m1 := snd (reextract_missing sv m) in
  let r := generate_summary sv invoice_path_arg po_path_arg m in
  ready (session m1) = true ->
  trace (snd r) = later ++ ev :: h ->
  length (trace m1) <= length h ->
  failure_of sv h ev = Some e ->
  later = [] /\ fst r = Raised e.
Proof.
  intros m1 r. unfold r. rewrite generate_summary_run. fold m1.
  intros ->. apply request_summary_failure.
Qed.

(** What does hold of an upload whose extraction fails: the call returns,
    the uploaded bytes are in the new scratch file, its path is stored
    for the role, and [st.error] is not called. *)
Lemma failed_upload_keeps_handle (uploaded : uploaded_file)
  (document_type msg temp_path : string) (m : machine Table) :
  let r := process_uploaded_file sv uploaded document_type m in
  fst r = Returned (Some (VStr msg), temp_path) ->
  path_of (role_of document_type) (session (snd r)) = Some temp_path
  /\ files (snd r) !! temp_path = Some (getvalue uploaded)
  /\ only_adds (fun ev => negb (is_st_error ev)) m (snd r).
Proof.
  cbn zeta. unfold process_uploaded_file, bind. rewrite save_upload_run.
  match goal with
  | |- context [named_temporary_file sv ?sfx ?data ?m0] =>
      pose proof (named_temporary_file_spec sv sfx data m0) as (_ & Ht & Hr);
      destruct (named_temporary_file sv sfx data m0) as [[tp|e] m1]
  end; cbn [fst snd with_trace session trace] in *; [|discriminate].
  destruct Hr as (_ & _ & Hf).
  destruct (extract_upload_run sv uploaded document_type tp m1)
    as (v & m3 & Hp & ->). cbn [fst snd session files trace].
  intros [= -> ->].
  pose proof (process_file_session sv temp_path document_type
    (with_trace (Shown (status_text "Extracting data...")
                 :: Shown (st_progress 20) :: trace m1) m1)) as [Hf3 _].
  destruct (process_file_trace sv temp_path document_type
    (with_trace (Shown (status_text "Extracting data...")
                 :: Shown (st_progress 20) :: trace m1) m1)) as (evs & Ht3 & Fevs).
  rewrite Hp in Hf3, Ht3. cbn [fst snd with_trace files trace] in *.
  repeat split.
  - now destruct (role_of document_type).
  - rewrite Hf3, Hf. apply lookup_insert_eq.
  - eexists (_ :: _ :: _ :: _ :: evs ++ [_; _; _; _; _; _; _; _]).
    cbn [trace]. split.
    + rewrite Ht3, Ht. cbn [app]. now rewrite <- app_assoc.
    + cbn [forallb is_st_error negb andb]. rewrite forallb_app.
      cbn [forallb is_st_error negb andb]. rewrite andb_true_r.
      rewrite forallb_forall in *. intros ev Hin. specialize (Fevs ev Hin).
      now destruct ev as [| | | | | | | | | | | | | []].
Qed.

End Workflow.

Lemma dispatch_on_extension_witness :
  extract_by_extension Sample.world "/tmp/tmpq3.PdF"
  = extract_content_from_pdf Sample.world "/tmp/tmpq3.PdF"
  /\ extract_by_extension Sample.world "/tmp/tmpq3.csv"
     = extract_content_from_csv Sample.world "/tmp/tmpq3.csv"
  /\ fst (process_file Sample.world "/tmp/tmpq3.docx" "invoice" Sample.fresh)
     = Returned (VStr "Error: Unsupported file format: .docx").
Proof.
  split; [|split].
  - apply (proj1 (dispatch_on_extension Sample.world "/tmp/tmpq3.PdF")).
    now exists "/tmp/tmpq3", ".PdF".
  - apply (proj1 (proj2 (dispatch_on_extension Sample.world "/tmp/tmpq3.csv"))).
    now exists "/tmp/tmpq3", ".csv".
  - rewrite (proj2 (proj2 (proj2 (dispatch_on_extension Sample.world "/tmp/tmpq3.docx"))
                      ltac:(rewrite <- endswith_lower_iff; vm_compute; discriminate)
                      ltac:(rewrite <- endswith_lower_iff; vm_compute; discriminate)
                      "invoice" Sample.fresh)).
    reflexivity.
Defined.

Lemma csv_extraction_result_witness :
  Sample.with_invoice_on_disk.(files) !! "/tmp/tmpq3.csv"
  = Some (getvalue Sample.invoice_csv)
  /\ Sample.parse_csv (getvalue Sample.invoice_csv)
     = Returned Sample.widget_frame
  /\ fst (extract_content_from_csv Sample.world "/tmp/tmpq3.csv"
            Sample.with_invoice_on_disk)
     = Returned ("  item  qty" +:+ Py.newline +:+ "Widget    5",
                 [{| Sample.columns := ["item"; "qty"];
                     Sample.rows := [["Widget"; "5"]] |}])
  /\ invoice_content (session Sample.after_invoice)
     = Some (Sample.to_string Sample.widget_frame, [Sample.widget_frame]).
Proof.
  assert (H1 : Sample.with_invoice_on_disk.(files) !! "/tmp/tmpq3.csv"
               = Some (getvalue Sample.invoice_csv)) by (vm_compute; reflexivity).
  assert (H2 : pd_parse_csv Sample.world (getvalue Sample.invoice_csv)
               = Returned Sample.widget_frame) by (vm_compute; reflexivity).
  split; [exact H1 | split; [exact H2 | split]].
  - now rewrite (csv_extraction_result Sample.world _ _ _ _ H1 H2).
  - vm_compute. reflexivity.
Defined.

Lemma process_file_never_raises_witness :
  exists v m2,
    process_uploaded_file Sample.world Sample.empty_csv "invoice" Sample.fresh
    = (Returned (Some v, "/tmp/tmpa.csv"), m2)
    /\ path_of Invoice (session m2) = Some "/tmp/tmpa.csv".
Proof.
  destruct (proj2 (process_file_never_raises Sample.world "invoice")
              Sample.empty_csv "/tmp/tmpa.csv" Sample.fresh
              (snd (save_upload Sample.world Sample.empty_csv "invoice"
                      Sample.fresh)))
    as (v & m2 & H1 & H2 & _).
  - vm_compute. reflexivity.
  - exists v, m2. split; assumption.
Defined.

(** C1 as stated fails: with the invoice uploaded and extracted, a second
    upload for the invoice whose extraction fails (an empty CSV file)
    returns the error string and leaves the earlier content in place. *)
Lemma failed_upload_keeps_old_content :
  ~ failed_upload_clears_content Sample.world Sample.empty_csv "invoice"
      Sample.after_invoice.
Proof.
  intros H.
  specialize (H "Error: No columns to parse from file" "/tmp/tmpaa.csv").
  assert (E : fst (process_uploaded_file Sample.world Sample.empty_csv "invoice"
                     Sample.after_invoice)
              = Returned (Some (VStr "Error: No columns to parse from file"),
                          "/tmp/tmpaa.csv")) by (vm_compute; reflexivity).
  specialize (H E).
  assert (C : is_None (content_of (role_of "invoice")
                (session (snd (process_uploaded_file Sample.world
                   Sample.empty_csv "invoice" Sample.after_invoice))))
              = false) by (vm_compute; reflexivity).
  rewrite H in C. discriminate C.
Qed.

Lemma compare_without_content_stops_witness :
  let m := snd (main Sample.world Sample.click_extract_empty_invoice Sample.fresh) in
  fst (generate_summary Sample.world (invoice_path (session m))
         (po_path (session m)) m)
  = Returned precondition_error.
Proof.
  intros m.
  destruct (compare_without_content_stops Sample.world
              (invoice_path (session m)) (po_path (session m)) m) as [H _].
  - right. split.
    + apply reachable_rerun, (reachable_start Sample.world ∅).
    + exists PurchaseOrder. vm_compute. reflexivity.
  - now rewrite H.
Defined.

Lemma compare_extracts_missing_role_once_witness :
  let m := Sample.after_failed_po in
  exists evs,
    trace (snd (generate_summary Sample.world None None m)) = evs ++ trace m
    /\ List.filter is_process_file_call evs
       = [Called_process_file "/tmp/tmpaa.pdf" "purchase_order"].
Proof.
  apply (proj1 (compare_extracts_missing_role_once Sample.world None None
                  Sample.after_failed_po PurchaseOrder "/tmp/tmpaa.pdf"
                  ltac:(vm_compute; reflexivity)
                  ltac:(vm_compute; reflexivity)
                  ltac:(vm_compute; reflexivity)
                  ltac:(vm_compute; reflexivity)
                  ltac:(vm_compute; discriminate))).
Defined.

Lemma comparison_failure_propagates_witness :
  fst (generate_summary Sample.world_over_quota None None Sample.both_ready)
  = Raised Sample.RateLimitError
  /\ fst (main Sample.world_over_quota Sample.click_compare Sample.both_ready)
     = Raised Sample.RateLimitError.
Proof.
  split; [|vm_compute; reflexivity].
  set (r := generate_summary Sample.world_over_quota None None Sample.both_ready).
  apply (proj2 (comparison_failure_propagates Sample.world_over_quota None None
                  Sample.both_ready []
                  (hd OpenAI_new (trace (snd r))) (tl (trace (snd r)))
                  Sample.RateLimitError
                  ltac:(vm_compute; reflexivity)
                  ltac:(vm_compute; reflexivity)
                  ltac:(vm_compute; lia)
                  ltac:(vm_compute; reflexivity))).
Defined.

(** C2, on the code.  An empty CSV file is uploaded as the invoice and
    "Extract Invoice" is clicked.  The run ends normally, the scratch file
    holds the upload and its path is stored, the content stays absent, and
    [process_uploaded_file] hands the error string back to [main]; but
    [main] drops that string, the page reads "Done" and "Extracted
    Successfully", and [st.error] is never called: the failure reaches the
    log only. *)
Theorem failed_extraction_shown_as_success :
  let r := main Sample.world Sample.click_extract_empty_invoice Sample.fresh in
  fst r = Returned tt
  /\ invoice_path (session (snd r)) = Some "/tmp/tmpa.csv"
  /\ files (snd r) !! "/tmp/tmpa.csv" = Some (getvalue Sample.empty_csv)
  /\ invoice_content (session (snd r)) = None
  /\ fst (process_uploaded_file Sample.world Sample.empty_csv "invoice"
            Sample.fresh)
     = Returned (Some (VStr "Error: No columns to parse from file"),
                 "/tmp/tmpa.csv")
  /\ Sample.drawn [] (trace (snd r))
     = [st_title "📄 Document Parser";
        st_markdown
          "Upload Invoices or Purchase Orders (PDF or CSV) and get structured results.";
        st_columns 2; st_subheader "Invoice";
        st_file_uploader "Upload Invoice (PDF or CSV)" "invoice";
        st_button "Extract Invoice";
        st_write "Processing invoice: invoice.csv";
        st_progress 0; st_empty; status_text "Saving file...";
        st_progress 20; status_text "Extracting data...";
        st_progress 100; status_text "Done ✅";
        st_expander "Results: invoice.csv";
        st_markdown "Extracted Successfully"; st_subheader "Purchase Order";
        st_file_uploader "Upload PO (PDF or CSV)" "po";
        st_markdown "---";
        st_subheader "📊 Compare Invoice and Purchase Order";
        st_checkbox "Show debug info";
        st_info "Upload both Invoice and Purchase Order to enable comparison."].
Proof. vm_compute. repeat split. Qed.

Section Dispatch.

Context {Table : Type} (sv : services Table).

(** The choice of lines 54-59, read off the case-insensitive suffix. *)
Lemma extractor_for_suffix (file_path : string) :
  (ends_with_ci file_path ".pdf" ->
   extract_by_extension sv file_path = extract_content_from_pdf sv file_path)
  /\ (ends_with_ci file_path ".csv" ->
      extract_by_extension sv file_path = extract_content_from_csv sv file_path).
Proof.
  split; intros H; apply endswith_lower_iff in H; unfold extract_by_extension.
  - now rewrite H.
  - rewrite H.
    destruct (Py.endswith (Py.lower file_path) ".pdf") eqn:E; [|reflexivity].
    exfalso. revert E H. generalize (Py.lower file_path). intros s.
    induction s as [|c s IH]; cbn [Py.endswith].
    + now rewrite orb_false_r.
    + rewrite !orb_true_iff, !String.eqb_eq.
      intros [H1|H1] [H2|H2]; auto.
      * congruence.
      * injection H1 as _ ->. vm_compute in H2. discriminate.
      * injection H2 as _ ->. vm_compute in H1. discriminate.
Qed.

End Dispatch.

(** * Further properties of the functions *)

Section Functions.

Context {Table : Type} (sv : services Table).

(** X1.  PDF extraction is all or nothing and never touches the session
    or the files.  It returns the text and the tables only when the
    constructor and both extraction calls succeeded, in that order; when
    one of them fails, the calls after it are not made, the error is
    logged, and the exception raised is the one of the failing call. *)
Theorem pdf_extraction_all_or_nothing (pdf_path : string) (m : machine Table) :
  let r := extract_content_from_pdf sv pdf_path m in
  let h0 := Logged INFO ("Extracting from PDF: " +:+ Py.basename pdf_path)
            :: trace m in
  session (snd r) = session m /\ files (snd r) = files m /\
  match fst r with
  | Returned (text, tables) =>
      di_new sv h0 pdf_path = Returned tt
      /\ di_extract_text sv (DI_new pdf_path :: h0) pdf_path = Returned text
      /\ di_extract_tables sv
           (DI_extract_text pdf_path :: DI_new pdf_path :: h0) pdf_path
         = Returned tables
      /\ trace (snd r)
         = DI_extract_tables pdf_path :: DI_extract_text pdf_path
           :: DI_new pdf_path :: h0
  | Raised e =>
      exists ev h,
        trace (snd r)
        = Logged ERROR ("PDF extraction error: " +:+ str e) :: ev :: h
        /\ di_failure_of sv h ev = Some e
  end.
Proof.
  cbn zeta.
  destruct (extract_content_from_pdf_store sv pdf_path m) as [Hs Hf].
  split; [exact Hs | split; [exact Hf|]]. clear Hs Hf.
  unfold extract_content_from_pdf, try_except, bind, call, log_info,
    log_error, emit, raise, ret.
  cbn [with_trace trace session files fst snd].
  repeat case_match; cbn [with_trace trace session files fst snd] in *;
    simplify_eq.
  - repeat match goal with u : unit |- _ => destruct u end. auto.
  - eexists _, _. split; [reflexivity|]. cbn [di_failure_of].
    match goal with E : _ = Raised _ |- _ => now rewrite E end.
  - eexists _, _. split; [reflexivity|]. cbn [di_failure_of].
    match goal with E : _ = Raised _ |- _ => now rewrite E end.
  - eexists _, _. split; [reflexivity|]. cbn [di_failure_of].
    match goal with E : _ = Raised _ |- _ => now rewrite E end.
Qed.

(** X2.  When [pd.read_csv] fails on a path ending in [.csv] (missing
    file, or a file pandas cannot parse), [process_file] returns "Error: "
    followed by the text of that exception, leaves session and files as
    they were, and the failure is logged twice: once by the CSV extractor
    and once by [process_file]. *)
Theorem csv_failure_becomes_error_string (file_path document_type : string)
  (e : Exception) (m : machine Table) :
  ends_with_ci file_path ".csv" ->
  read_csv_reply sv file_path m = Raised e ->
  process_file sv file_path document_type m
  = (Returned (VStr ("Error: " +:+ str e)),
     with_trace
       (Logged ERROR ("Processing error: " +:+ str e)
        :: Logged ERROR ("CSV extraction error: " +:+ str e)
        :: Pandas_read_csv file_path
        :: Logged INFO ("Extracting from CSV: " +:+ Py.basename file_path)
        :: Called_process_file file_path document_type
        :: trace m) m).
Proof.
  intros Hext Hreply.
  pose proof (process_file_run sv file_path document_type m) as R.
  cbn zeta in R.
  rewrite (proj2 (extractor_for_suffix sv file_path) Hext) in R.
  unfold extract_content_from_csv, try_except, bind, pd_read_csv, log_info,
    log_error, emit, raise in R.
  unfold read_csv_reply in Hreply.
  cbn [with_trace trace session files fst snd] in R.
  rewrite Hreply in R. exact R.
Qed.

(** X3.  Only the exact string ["invoice"] selects the invoice: with any
    other [document_type] (another spelling or letter case included) a
    successful [process_file] stores the content as the purchase order's
    and leaves the invoice's content alone. *)
Theorem other_document_types_are_purchase_orders
  (file_path document_type : string) (c : content) (m : machine Table) :
  document_type <> "invoice" ->
  let r := process_file sv file_path document_type m in
  fst r = Returned (VContent c) ->
  po_content (session (snd r)) = Some c
  /\ invoice_content (session (snd r)) = invoice_content (session m).
Proof.
  intros Hdt r Hr.
  destruct (process_file_session sv file_path document_type m) as [_ H].
  fold r in H. rewrite Hr in H. rewrite H. unfold role_of.
  apply String.eqb_neq in Hdt. rewrite Hdt. now cbn.
Qed.

(** X4.  Whatever its arguments and outcome, [process_file] changes
    neither of the two path attributes nor any file, and it adds to the
    history only its call record, log lines and extractor calls. *)
Theorem process_file_only_sets_content (file_path document_type : string)
  (m : machine Table) :
  let m' := snd (process_file sv file_path document_type m) in
  invoice_path (session m') = invoice_path (session m)
  /\ po_path (session m') = po_path (session m)
  /\ files m' = files m
  /\ only_adds (fun ev => is_process_file_call ev || is_extraction ev) m m'.
Proof.
  destruct (process_file_paths sv file_path document_type m) as (H1 & H2 & H3).
  repeat split; auto. apply process_file_adds.
Qed.

Lemma append_assoc (a b c : string) : (a +:+ b) +:+ c = a +:+ b +:+ c.
Proof.
  induction a as [|x a IH]; [reflexivity|].
  change (String x ((a +:+ b) +:+ c) = String x (a +:+ b +:+ c)).
  now rewrite IH.
Qed.

Lemma lower_idempotent (s : string) : Py.lower (Py.lower s) = Py.lower s.
Proof.
  induction s as [|c s IH]; cbn [Py.lower]; [reflexivity|]. rewrite IH.
  f_equal. unfold Py.lower_char.
  destruct (Nat.leb 65 (nat_of_ascii c) && Nat.leb (nat_of_ascii c) 90) eqn:E;
    [|now rewrite E].
  apply andb_true_iff in E as [E1 E2].
  apply Nat.leb_le in E1, E2.
  rewrite nat_ascii_embedding by lia.
  replace (Nat.leb (nat_of_ascii c + 32) 90) with false; [now rewrite andb_false_r|].
  symmetry. apply Nat.leb_gt. lia.
Qed.

Lemma first_unused_shape (cands : nat -> string) (dir suffix : string)
  (fs : gmap string string) (attempts n : nat) (p : string) :
  first_unused cands dir suffix fs n attempts = Some p ->
  exists k, p = dir +:+ "/tmp" +:+ cands k +:+ suffix.
Proof.
  revert n. induction attempts as [|a IH]; intros n; cbn [first_unused];
    [discriminate|].
  destruct (fs !! (dir +:+ "/tmp" +:+ cands n +:+ suffix)).
  - apply IH.
  - intros [= <-]. now exists n.
Qed.

(** [process_uploaded_file], outcome by outcome.  If the scratch file
    cannot be written the exception goes out and only the widgets drawn
    so far are new.  Otherwise the call returns the result of
    [process_file] and the name of a new file that holds the upload; that
    name is stored for the role. *)
Lemma process_uploaded_file_cases (uploaded : uploaded_file)
  (document_type : string) (m : machine Table) :
  let r := process_uploaded_file sv uploaded document_type m in
  let suffix := Py.lower (snd (Py.splitext (name uploaded))) in
  let saving :=
    NamedTemporaryFile suffix
    :: Shown (status_text "Saving file...") :: Shown st_empty
    :: Shown (st_progress 0)
    :: Shown (st_write ("Processing " +:+ document_type +:+ ": "
                        +:+ name uploaded))
    :: trace m in
  match fst r with
  | Raised e =>
      session (snd r) = session m /\ files (snd r) = files m
      /\ trace (snd r) = saving
  | Returned (res, temp_path) =>
      (exists v m3,
         res = Some v
         /\ process_file sv temp_path document_type
              {| session := session m;
                 files := <[temp_path := getvalue uploaded]> (files m);
                 trace := Shown (status_text "Extracting data...")
                          :: Shown (st_progress 20) :: saving |}
            = (Returned v, m3)
         /\ session (snd r)
            = set_path (role_of document_type) (Some temp_path) (session m3))
      /\ (exists k, temp_path = gettempdir sv +:+ "/tmp"
                                +:+ candidate_names sv
                                      (Shown (status_text "Saving file...")
                                       :: Shown st_empty
                                       :: Shown (st_progress 0)
                                       :: Shown (st_write
                                            ("Processing " +:+ document_type
                                             +:+ ": " +:+ name uploaded))
                                       :: trace m) k
                                +:+ suffix)
      /\ temp_path <> EmptyString
      /\ files m !! temp_path = None
      /\ files (snd r) = <[temp_path := getvalue uploaded]> (files m)
  end.
Proof.
  cbn zeta. unfold process_uploaded_file, bind. rewrite save_upload_run.
  unfold named_temporary_file. generalize TMP_MAX. intros attempts.
  cbn [with_trace trace session files].
  destruct (storage_failure sv _); [now cbn|].
  destruct (first_unused _ _ _ _ _ _) as [tp|] eqn:E; [|now cbn].
  pose proof (first_unused_shape _ _ _ _ _ _ _ E) as Hshape.
  apply first_unused_spec in E as [Hfresh Hne].
  match goal with
  | |- context [extract_upload sv uploaded document_type tp ?m1] =>
      destruct (extract_upload_run sv uploaded document_type tp m1)
        as (v & m3 & Hp & ->);
      pose proof (process_file_session sv tp document_type
        (with_trace (Shown (status_text "Extracting data...")
                     :: Shown (st_progress 20) :: trace m1) m1)) as [Hf _]
  end.
  rewrite Hp in Hf. unfold with_trace in Hp, Hf.
  cbn [fst snd session files trace] in *.
  repeat split; auto. exists v, m3. auto.
Qed.

Lemma generate_summary_paths (invoice_path_arg po_path_arg : option string) :
  steps same_paths (generate_summary sv invoice_path_arg po_path_arg).
Proof.
  intros m. rewrite generate_summary_run, reextract_missing_run. cbn [snd].
  assert (H : same_paths m
    (after_reextract sv PurchaseOrder (after_reextract sv Invoice m))).
  { etransitivity; apply after_reextract_paths. }
  destruct (ready _); [|exact H].
  etransitivity; [exact H|].
  destruct (request_summary_store sv
    (after_reextract sv PurchaseOrder (after_reextract sv Invoice m)))
    as [Hs Hf].
  unfold same_paths. now rewrite Hs, Hf.
Qed.

#[global] Instance files_kept_preorder : PreOrder (@files_kept Table).
Proof.
  split.
  - intros m p data H. exact H.
  - intros m1 m2 m3 H1 H2 p data H. auto.
Qed.

#[global] Instance keeps_on_disk_preorder : PreOrder (@keeps_on_disk Table).
Proof.
  split.
  - intros m H. exact H.
  - intros m1 m2 m3 H1 H2 H. auto.
Qed.

Lemma same_store_files_kept (m m' : machine Table) :
  same_store m m' -> files_kept m m'.
Proof. intros [_ H] p data. now rewrite H. Qed.

Lemma same_paths_files_kept (m m' : machine Table) :
  same_paths m m' -> files_kept m m'.
Proof. intros (_ & _ & H) p data. now rewrite H. Qed.

Lemma same_store_on_disk (m m' : machine Table) :
  same_store m m' -> keeps_on_disk m m'.
Proof. intros [H1 H2] H r p. rewrite H1, H2. apply H. Qed.

Lemma same_paths_on_disk (m m' : machine Table) :
  same_paths m m' -> keeps_on_disk m m'.
Proof.
  intros (H1 & H2 & H3) H r p. rewrite H3. intros Hp. apply (H r).
  destruct r; cbn [path_of] in *; congruence.
Qed.

Lemma process_uploaded_file_files_kept (uploaded : uploaded_file)
  (document_type : string) :
  steps files_kept (process_uploaded_file sv uploaded document_type).
Proof.
  intros m p data Hp.
  pose proof (process_uploaded_file_cases uploaded document_type m) as H.
  cbn zeta in H.
  destruct (fst (process_uploaded_file sv uploaded document_type m))
    as [[res tp]|e].
  - destruct H as (_ & _ & _ & Hfresh & ->).
    rewrite lookup_insert_ne; [exact Hp | congruence].
  - destruct H as (_ & -> & _). exact Hp.
Qed.

Lemma process_uploaded_file_on_disk (uploaded : uploaded_file)
  (document_type : string) :
  steps keeps_on_disk (process_uploaded_file sv uploaded document_type).
Proof.
  intros m Hm r p.
  pose proof (process_uploaded_file_cases uploaded document_type m) as H.
  cbn zeta in H.
  destruct (fst (process_uploaded_file sv uploaded document_type m))
    as [[res tp]|e].
  - destruct H as ((v & m3 & _ & Hp & ->) & _ & _ & _ & ->).
    match type of Hp with
    | process_file _ _ _ ?m2 = _ =>
        pose proof (process_file_paths sv tp document_type m2) as Hpaths
    end.
    rewrite Hp in Hpaths. destruct Hpaths as (H1 & H2 & _).
    cbn [snd session] in H1, H2.
    intros Hr. destruct (decide (tp = p)) as [->|Hne].
    + rewrite lookup_insert_eq. eauto.
    + rewrite lookup_insert_ne by exact Hne. apply (Hm r).
      destruct (role_of document_type), r;
        cbn [set_path path_of invoice_path po_path] in *; congruence.
  - destruct H as (-> & -> & _). apply Hm.
Qed.

Lemma main_on_disk (inp : ui_input) : steps keeps_on_disk (main sv inp).
Proof.
  unfold main.
  split_steps;
    first [ apply process_uploaded_file_on_disk
          | intros m; apply same_paths_on_disk, generate_summary_paths
          | intros m; apply same_store_on_disk, show_store ].
Qed.

Lemma reachable_on_disk (m : machine Table) : reachable sv m -> on_disk m.
Proof.
  induction 1 as [fs|m inp _ IH].
  - intros [] p; discriminate.
  - now apply main_on_disk.
Qed.

(** X5.  In every session the script can reach, a role has content only
    if a non-empty path is stored for it. *)
Theorem content_only_with_path (m : machine Table) (r : role) :
  reachable sv m ->
  content_of r (session m) <> None ->
  exists p, path_of r (session m) = Some p /\ p <> EmptyString.
Proof.
  intros Hreach Hc. pose proof (reachable_consistent sv m Hreach r Hc) as H.
  destruct (path_of r (session m)) as [p|]; [|discriminate].
  exists p. split; [reflexivity|]. intros ->. discriminate.
Qed.

(** X6.  An upload that gets past the write is in a new file: its name
    was unused before, it is the temporary directory, "/tmp", a generated
    stem and the lower-cased extension of the uploaded name, and after the
    call the disk is the old disk plus that one file holding the uploaded
    bytes. *)
Theorem upload_writes_fresh_scratch_file (uploaded : uploaded_file)
  (document_type : string) (res : option (pyval Table)) (temp_path : string)
  (m : machine Table) :
  let r := process_uploaded_file sv uploaded document_type m in
  fst r = Returned (res, temp_path) ->
  files m !! temp_path = None
  /\ files (snd r) = <[temp_path := getvalue uploaded]> (files m)
  /\ exists stem,
       temp_path = gettempdir sv +:+ "/tmp" +:+ stem
                   +:+ Py.lower (snd (Py.splitext (name uploaded))).
Proof.
  intros r Hr.
  pose proof (process_uploaded_file_cases uploaded document_type m) as H.
  cbn zeta in H. fold r in H. rewrite Hr in H.
  destruct H as (_ & [k Hk] & _ & Hfresh & Hfiles). eauto.
Qed.

(** X7.  The extension of the uploaded name decides the extractor
    whatever its letter case: when it lower-cases to [.pdf] the scratch
    file goes to the PDF extractor, when it lower-cases to [.csv] to the
    CSV extractor. *)
Theorem upload_extension_selects_extractor (uploaded : uploaded_file)
  (document_type : string) (res : option (pyval Table)) (temp_path : string)
  (m : machine Table) :
  fst (process_uploaded_file sv uploaded document_type m)
  = Returned (res, temp_path) ->
  let ext := Py.lower (snd (Py.splitext (name uploaded))) in
  (ext = ".pdf" ->
   extract_by_extension sv temp_path = extract_content_from_pdf sv temp_path)
  /\ (ext = ".csv" ->
      extract_by_extension sv temp_path = extract_content_from_csv sv temp_path).
Proof.
  intros Hr ext.
  pose proof (process_uploaded_file_cases uploaded document_type m) as H.
  cbn zeta in H. rewrite Hr in H.
  destruct H as (_ & [k Hk] & _). fold ext in Hk.
  assert (Hci : forall e, ext = e -> Py.lower e = e -> ends_with_ci temp_path e).
  { intros e He Hl. rewrite He in Hk.
    exists (gettempdir sv +:+ "/tmp" +:+ candidate_names sv
              (Shown (status_text "Saving file...") :: Shown st_empty
               :: Shown (st_progress 0)
               :: Shown (st_write ("Processing " +:+ document_type +:+ ": "
                                   +:+ name uploaded))
               :: trace m) k), e.
    split; [|exact Hl]. now rewrite !append_assoc. }
  split; intros He.
  - apply (proj1 (extractor_for_suffix sv temp_path)). now apply Hci.
  - apply (proj2 (extractor_for_suffix sv temp_path)). now apply Hci.
Qed.


(** X9.  A run of the script never deletes or overwrites a file: every
    file on disk before the run is there, with the same bytes, after it
    (so the scratch file of a replaced upload stays behind). *)
Theorem script_never_removes_files (inp : ui_input) (m : machine Table)
  (p data : string) :
  files m !! p = Some data ->
  files (snd (main sv inp m)) !! p = Some data.
Proof.
  revert p data. change (files_kept m (snd (main sv inp m))). revert m.
  change (steps files_kept (main sv inp)). unfold main.
  split_steps;
    first [ apply process_uploaded_file_files_kept
          | intros m; apply same_paths_files_kept, generate_summary_paths
          | intros m; apply same_store_files_kept, show_store ].
Qed.

(** X10.  In every session the script can reach, each stored path names
    a file that exists on disk. *)
Theorem stored_paths_exist (m : machine Table) (r : role) (p : string) :
  reachable sv m ->
  path_of r (session m) = Some p ->
  is_Some (files m !! p).
Proof. intros Hreach. apply (reachable_on_disk m Hreach). Qed.

(** X11.  In a session the script can reach, a new upload never reuses a
    stored path: the new path differs from the path stored for either
    role, and the file of that stored path is left on disk untouched. *)
Theorem reupload_gets_new_path (uploaded : uploaded_file)
  (document_type : string) (res : option (pyval Table))
  (temp_path old : string) (r : role) (m : machine Table) :
  reachable sv m ->
  path_of r (session m) = Some old ->
  let run := process_uploaded_file sv uploaded document_type m in
  fst run = Returned (res, temp_path) ->
  temp_path <> old
  /\ files (snd run) !! old = files m !! old
  /\ is_Some (files m !! old).
Proof.
  intros Hreach Hold run Hrun.
  pose proof (reachable_on_disk m Hreach r old Hold) as Hdisk.
  pose proof (process_uploaded_file_cases uploaded document_type m) as H.
  cbn zeta in H. fold run in H. rewrite Hrun in H.
  destruct H as (_ & _ & _ & Hfresh & ->).
  assert (Hne : temp_path <> old).
  { intros ->. rewrite Hfresh in Hdisk. now destruct Hdisk. }
  repeat split; [exact Hne | now rewrite lookup_insert_ne | exact Hdisk].
Qed.

Lemma reextract_ready (m : machine Table) :
  ready (session m) = true -> snd (reextract_missing sv m) = m.
Proof.
  intros H. rewrite reextract_missing_run. cbn [snd].
  unfold ready in H. apply negb_true_iff, orb_false_elim in H as [H1 H2].
  rewrite (after_reextract_ready sv Invoice m),
          (after_reextract_ready sv PurchaseOrder m); [reflexivity| |];
    cbn [content_of]; intros E; rewrite E in *; discriminate.
Qed.


Lemma adds_nil (P : event -> bool) (t0 : history) :
  exists evs, t0 = evs ++ t0 /\ forallb P evs = true.
Proof. now exists []. Qed.

Lemma adds_cons (P : event -> bool) (ev : event) (t t0 : history) :
  (exists evs, t = evs ++ t0 /\ forallb P evs = true) ->
  P ev = true ->
  exists evs, ev :: t = evs ++ t0 /\ forallb P evs = true.
Proof.
  intros (evs & -> & F) H. exists (ev :: evs). cbn. now rewrite H, F.
Qed.

(** X12.  With both contents present, [generate_summary] extracts
    nothing and changes neither the session nor the files: all it does is
    call the connector, read the secrets and call the prompt service and
    the model. *)
Theorem compare_with_both_contents_only_requests
  (invoice_path_arg po_path_arg : option string) (m : machine Table) :
  ready (session m) = true ->
  let m' := snd (generate_summary sv invoice_path_arg po_path_arg m) in
  session m' = session m /\ files m' = files m /\ only_adds is_comparison m m'.
Proof.
  intros H m'. unfold m'. rewrite generate_summary_run.
  rewrite (reextract_ready m H), H.
  destruct (request_summary_store sv m) as [Hs Hf].
  repeat split; auto. apply request_summary_adds.
Qed.


(** X14.  When one of the four secrets of the prompt service is missing,
    a comparison that gets past the content check always ends in an
    exception, and neither the prompt service nor the model has been
    called (the connector to the model may already have been built). *)
Theorem missing_secret_stops_before_prompt_service
  (invoice_path_arg po_path_arg : option string) (m : machine Table)
  (key : string) :
  let m1 := snd (reextract_missing sv m) in
  let r := generate_summary sv invoice_path_arg po_path_arg m in
  ready (session m1) = true ->
  In key pezzo_secrets ->
  secrets sv key = None ->
  (exists e, fst r = Raised e)
  /\ only_adds (fun ev => negb (is_prompt_or_model ev)) m1 (snd r).
Proof.
  intros m1 r Hready Hkey Hnone. unfold r. rewrite generate_summary_run.
  fold m1. rewrite Hready. clear r Hready. revert Hkey Hnone.
  generalize m1. clear m1 m. intros m Hkey Hnone.
  unfold request_summary, bind, secret, call, get_session.
  cbn [with_trace trace session files fst snd].
  unfold only_adds.
  repeat case_match; cbn [with_trace trace session files fst snd] in *;
    simplify_eq.
  all: try (split; [eauto|];
            repeat (apply adds_cons; [|reflexivity]); apply adds_nil).
  all: exfalso; cbn [pezzo_secrets In] in Hkey;
    destruct Hkey as [<-|[<-|[<-|[<-|[]]]]]; congruence.
Qed.

(** X15.  With both paths set and both contents missing,
    [generate_summary] runs [process_file] twice, first for the invoice
    and then for the purchase order; the second run happens whether or not
    the first one succeeded. *)
Theorem compare_extracts_both_in_order
  (invoice_path_arg po_path_arg : option string) (m : machine Table)
  (pi pp : string) :
  invoice_path (session m) = Some pi -> truthy (Some pi) = true ->
  po_path (session m) = Some pp -> truthy (Some pp) = true ->
  invoice_content (session m) = None ->
  po_content (session m) = None ->
  let m' := snd (generate_summary sv invoice_path_arg po_path_arg m) in
  exists evs,
    trace m' = evs ++ trace m
    /\ List.filter is_process_file_call evs
       = [Called_process_file pp "purchase_order";
          Called_process_file pi "invoice"].
Proof.
  intros Hpi Hti Hpp Htp Hci Hcp m'. unfold m'.
  rewrite generate_summary_run, reextract_missing_run. cbn [snd].
  set (mi := snd (process_file sv pi "invoice" m)).
  assert (Ei : after_reextract sv Invoice m = mi).
  { unfold after_reextract, due. cbn [path_of content_of document_type_of].
    now rewrite Hpi, Hti, Hci. }
  rewrite Ei.
  pose proof (process_file_other sv pi (document_type_of Invoice) m) as Ho.
  rewrite role_of_document_type_of in Ho. destruct Ho as [Ho1 Ho2].
  cbn [other content_of path_of document_type_of] in Ho1, Ho2. fold mi in Ho1, Ho2.
  set (mp := snd (process_file sv pp "purchase_order" mi)).
  assert (Ep : after_reextract sv PurchaseOrder mi = mp).
  { unfold after_reextract, due. cbn [path_of content_of document_type_of].
    now rewrite Ho2, Hpp, Htp, Ho1, Hcp. }
  rewrite Ep.
  destruct (process_file_trace sv pi "invoice" m) as (e1 & T1 & F1).
  destruct (process_file_trace sv pp "purchase_order" mi) as (e2 & T2 & F2).
  fold mi in T1. fold mp in T2.
  assert (X1 : List.filter is_process_file_call e1 = [])
    by (apply (filter_none is_extraction); [now intros [] | exact F1]).
  assert (X2 : List.filter is_process_file_call e2 = [])
    by (apply (filter_none is_extraction); [now intros [] | exact F2]).
  assert (T : trace mp
              = (e2 ++ [Called_process_file pp "purchase_order"] ++ e1
                 ++ [Called_process_file pi "invoice"]) ++ trace m).
  { rewrite T2, T1. now rewrite <- !app_assoc. }
  destruct (ready (session mp)).
  - destruct (request_summary_adds sv mp) as (cmp & Hcmp & Fcmp).
    exists (cmp ++ e2 ++ [Called_process_file pp "purchase_order"] ++ e1
            ++ [Called_process_file pi "invoice"]). split.
    + rewrite Hcmp, T. now rewrite <- !app_assoc.
    + rewrite !List.filter_app, X1, X2.
      rewrite (filter_none is_comparison _ cmp);
        [reflexivity | now intros [] | exact Fcmp].
  - cbn [snd]. eexists. split; [exact T|].
    now rewrite !List.filter_app, X1, X2.
Qed.

(** X16.  When [generate_summary] gets past the content check and
    returns, what it returns is the model's reply as it came, and the text
    sent to the model is the prompt "PurchaseOrder" as the prompt service
    gave it, an empty line, "Text: ", and the two contents separated by a
    comma, the invoice first. *)
Theorem compare_returns_model_reply
  (invoice_path_arg po_path_arg : option string) (m : machine Table)
  (answer : string) :
  let m1 := snd (reextract_missing sv m) in
  let r := generate_summary sv invoice_path_arg po_path_arg m in
  ready (session m1) = true ->
  fst r = Returned answer ->
  exists prompt h,
    trace (snd r)
    = LLM_invoke (prompt_text sv prompt (session m1))
      :: Pezzo_get_prompt "PurchaseOrder" :: h
    /\ get_prompt sv h "PurchaseOrder" = Returned prompt
    /\ llm_invoke sv (Pezzo_get_prompt "PurchaseOrder" :: h)
         (prompt_text sv prompt (session m1))
       = Returned answer.
Proof.
  intros m1 r Hready. unfold r. rewrite generate_summary_run.
  fold m1. rewrite Hready. clear r Hready.
  generalize m1. clear m1 m. intros m.
  unfold request_summary, bind, secret, call, get_session, prompt_text.
  cbn [with_trace trace session files fst snd].
  repeat case_match; cbn [with_trace trace session files fst snd] in *;
    simplify_eq; try discriminate.
  intros Hret. eexists _, _. split; [reflexivity|]. split; eassumption.
Qed.





Lemma same_store_same_role (r : role) (m m' : machine Table) :
  same_store m m' -> same_role r m m'.
Proof. intros [H _]. unfold same_role. now rewrite H. Qed.

Lemma named_temporary_file_adds (P : event -> bool) (suffix data : string) :
  P (NamedTemporaryFile suffix) = true ->
  steps (only_adds P) (named_temporary_file sv suffix data).
Proof.
  intros HP m.
  destruct (named_temporary_file_spec sv suffix data m) as (_ & Ht & _).
  exists [NamedTemporaryFile suffix]. split; [exact Ht|]. cbn. now rewrite HP.
Qed.

Lemma show_quiet (w : widget) :
  steps (only_adds (fun ev => negb (is_comparison ev))) (@show Table w).
Proof. intros m. now apply only_adds_event. Qed.

Lemma process_uploaded_file_quiet (uploaded : uploaded_file)
  (document_type : string) :
  steps (only_adds (fun ev => negb (is_comparison ev)))
        (process_uploaded_file sv uploaded document_type).
Proof.
  unfold process_uploaded_file, save_upload, extract_upload.
  split_steps.
  all: try (apply show_quiet).
  - now apply named_temporary_file_adds.
  - intros m. eapply only_adds_weaken; [|apply process_file_adds].
    now intros [].
  - intros m. now exists [].
  - intros m. now exists [].
Qed.

Lemma when_returned_bind {A B} (Q : history -> Prop) (c : @M Table A)
  (k : A -> @M Table B) :
  (forall a, when_returned Q (k a)) -> when_returned Q (bind c k).
Proof.
  intros Hk m b. unfold bind. destruct (c m) as [[a|e] m1]; cbn [fst snd].
  - apply Hk.
  - discriminate.
Qed.



(** X19.  Unless "Compare Documents" is clicked, a run of the script
    never touches the model connector, the secrets of the prompt service,
    the prompt service or the model. *)
Theorem no_comparison_without_click (inp : ui_input) (m : machine Table) :
  compare_clicked inp = false ->
  only_adds (fun ev => negb (is_comparison ev)) m (snd (main sv inp m)).
Proof.
  intros H. revert m.
  change (steps (only_adds (fun ev => negb (is_comparison ev))) (main sv inp)).
  unfold main. rewrite H. cbv iota.
  split_steps;
    first [apply show_quiet | apply process_uploaded_file_quiet].
Qed.

(** X20.  A run with "Compare Documents" clicked that ends normally ends
    in one of three ways: the credentials error, the hint to upload both
    documents, or the comparison drawn as markdown followed by a download
    button that carries exactly the drawn text, under the file name
    invoice_po_comparison.md and the type text/markdown. *)
Theorem comparison_shown_is_downloadable (inp : ui_input) (m : machine Table) :
  compare_clicked inp = true ->
  fst (main sv inp m) = Returned tt ->
  let t := trace (snd (main sv inp m)) in
  (exists comparison rest,
     t = Shown (st_download_button "Download Comparison" comparison
                  "invoice_po_comparison.md" "text/markdown")
         :: Shown (st_markdown comparison) :: rest)
  \/ (exists rest,
        t = Shown (st_info
              "Upload both Invoice and Purchase Order to enable comparison.")
            :: rest)
  \/ (exists rest,
        t = Shown (st_error "Azure Vision credentials missing.") :: rest).
Proof.
  intros Hc Hret t. unfold t. clear t.
  assert (W : when_returned (fun t : history =>
    (exists comparison rest,
       t = Shown (st_download_button "Download Comparison" comparison
                    "invoice_po_comparison.md" "text/markdown")
           :: Shown (st_markdown comparison) :: rest)
    \/ (exists rest,
          t = Shown (st_info
                "Upload both Invoice and Purchase Order to enable comparison.")
              :: rest)
    \/ (exists rest,
          t = Shown (st_error "Azure Vision credentials missing.") :: rest))
    (main sv inp)).
  { clear m Hret. unfold main. rewrite Hc. cbv iota.
    repeat match goal with
      | |- when_returned _ (bind (show (st_markdown _))
                                 (fun _ => show (st_download_button _ _ _ _))) =>
          intros ? ? _; left; eexists _, _; reflexivity
      | |- when_returned _ (bind _ _) => apply when_returned_bind; intros ?
      | |- when_returned _ (if ?b then _ else _) => destruct b
      | |- when_returned _ (show (st_info _)) =>
          intros ? ? _; right; left; eexists; reflexivity
      | |- when_returned _ (show (st_error _)) =>
          intros ? ? _; right; right; eexists; reflexivity
      end. }
  exact (W m tt Hret).
Qed.

(** X21.  A run in which neither "Extract Purchase Order" nor "Compare
    Documents" is clicked leaves the purchase order's path and content as
    they were, and likewise for the invoice when neither "Extract Invoice"
    nor "Compare Documents" is clicked. *)
Theorem extract_click_touches_one_role (inp : ui_input) (m : machine Table) :
  compare_clicked inp = false ->
  (extract_po_clicked inp = false ->
   same_role PurchaseOrder m (snd (main sv inp m)))
  /\ (extract_invoice_clicked inp = false ->
      same_role Invoice m (snd (main sv inp m))).
Proof.
  intros Hc. split; intros He; revert m.
  - change (steps (same_role PurchaseOrder) (main sv inp)).
    unfold main. rewrite Hc, He. cbv iota.
    split_steps;
      first [ intros m; apply same_store_same_role, show_store
            | apply (process_uploaded_file_other sv _ "invoice") ].
  - change (steps (same_role Invoice) (main sv inp)).
    unfold main. rewrite Hc, He. cbv iota.
    split_steps;
      first [ intros m; apply same_store_same_role, show_store
            | apply (process_uploaded_file_other sv _ "purchase_order") ].
Qed.

End Functions.

Lemma csv_failure_becomes_error_string_witness :
  fst (process_file Sample.world "/tmp/tmpq3.csv" "invoice" Sample.fresh)
  = Returned
      (VStr "Error: [Errno 2] No such file or directory: '/tmp/tmpq3.csv'").
Proof.
  rewrite (csv_failure_becomes_error_string Sample.world "/tmp/tmpq3.csv"
             "invoice" (FileNotFoundError "/tmp/tmpq3.csv") Sample.fresh).
  - reflexivity.
  - now exists "/tmp/tmpq3", ".csv".
  - vm_compute. reflexivity.
Defined.

Lemma other_document_types_are_purchase_orders_witness :
  let r := process_file Sample.world "/tmp/tmpq3.csv" "Invoice"
             Sample.with_invoice_on_disk in
  po_content (session (snd r))
  = Some (Sample.to_string Sample.widget_frame, [Sample.widget_frame])
  /\ invoice_content (session (snd r)) = None.
Proof.
  apply (other_document_types_are_purchase_orders Sample.world
           "/tmp/tmpq3.csv" "Invoice"
           (Sample.to_string Sample.widget_frame, [Sample.widget_frame])
           Sample.with_invoice_on_disk).
  - discriminate.
  - vm_compute. reflexivity.
Defined.

Lemma content_only_with_path_witness :
  let m := snd (main Sample.world Sample.click_extract_invoice Sample.fresh) in
  exists p, path_of Invoice (session m) = Some p /\ p <> EmptyString.
Proof.
  intros m.
  apply (content_only_with_path Sample.world m Invoice).
  - apply reachable_rerun, (reachable_start Sample.world ∅).
  - assert (E : is_None (content_of Invoice (session m)) = false)
      by (vm_compute; reflexivity).
    intros H. rewrite H in E. discriminate E.
Defined.

Lemma upload_writes_fresh_scratch_file_witness :
  let r := process_uploaded_file Sample.world Sample.invoice_csv "invoice"
             Sample.fresh in
  files Sample.fresh !! "/tmp/tmpa.csv" = None
  /\ files (snd r)
     = <["/tmp/tmpa.csv" := getvalue Sample.invoice_csv]> (files Sample.fresh).
Proof.
  intros r.
  destruct (upload_writes_fresh_scratch_file Sample.world Sample.invoice_csv
              "invoice"
              (Some (VContent (Sample.to_string Sample.widget_frame,
                               [Sample.widget_frame])))
              "/tmp/tmpa.csv" Sample.fresh) as (H1 & H2 & _).
  - vm_compute. reflexivity.
  - split; [exact H1 | exact H2].
Defined.

Lemma upload_extension_selects_extractor_witness :
  extract_by_extension Sample.world "/tmp/tmpaa.pdf"
  = extract_content_from_pdf Sample.world "/tmp/tmpaa.pdf".
Proof.
  apply (proj1 (upload_extension_selects_extractor Sample.world Sample.po_pdf
                  "purchase_order" (Some (VStr "Error: Connection timed out"))
                  "/tmp/tmpaa.pdf" Sample.after_invoice
                  ltac:(vm_compute; reflexivity))).
  vm_compute. reflexivity.
Defined.


Lemma script_never_removes_files_witness :
  files (snd (main Sample.world Sample.click_extract_invoice
                Sample.with_invoice_on_disk)) !! "/tmp/tmpq3.csv"
  = Some (getvalue Sample.invoice_csv).
Proof.
  apply (script_never_removes_files Sample.world Sample.click_extract_invoice
           Sample.with_invoice_on_disk).
  vm_compute. reflexivity.
Defined.

Lemma stored_paths_exist_witness :
  let m := snd (main Sample.world Sample.click_extract_empty_invoice
                  Sample.fresh) in
  is_Some (files m !! "/tmp/tmpa.csv").
Proof.
  intros m. apply (stored_paths_exist Sample.world m Invoice).
  - apply reachable_rerun, (reachable_start Sample.world ∅).
  - vm_compute. reflexivity.
Defined.

Lemma reupload_gets_new_path_witness :
  let m := snd (main Sample.world Sample.click_extract_empty_invoice
                  Sample.fresh) in
  let run := process_uploaded_file Sample.world Sample.invoice_csv "invoice" m in
  "/tmp/tmpaa.csv" <> "/tmp/tmpa.csv"
  /\ files (snd run) !! "/tmp/tmpa.csv" = files m !! "/tmp/tmpa.csv".
Proof.
  intros m run.
  destruct (reupload_gets_new_path Sample.world Sample.invoice_csv "invoice"
              (Some (VContent (Sample.to_string Sample.widget_frame,
                               [Sample.widget_frame])))
              "/tmp/tmpaa.csv" "/tmp/tmpa.csv" Invoice m) as (H1 & H2 & _).
  - apply reachable_rerun, (reachable_start Sample.world ∅).
  - vm_compute. reflexivity.
  - vm_compute. reflexivity.
  - split; [exact H1 | exact H2].
Defined.

Lemma compare_with_both_contents_only_requests_witness :
  session (snd (generate_summary Sample.world None None Sample.both_ready))
  = session Sample.both_ready.
Proof.
  apply (compare_with_both_contents_only_requests Sample.world None None
           Sample.both_ready).
  vm_compute. reflexivity.
Defined.


Lemma missing_secret_stops_before_prompt_service_witness :
  exists e,
    fst (generate_summary Sample.world_without_project_id None None
           Sample.both_ready) = Raised e.
Proof.
  apply (missing_secret_stops_before_prompt_service
           Sample.world_without_project_id None None Sample.both_ready
           "PEZZO_PROJECT_ID").
  - vm_compute. reflexivity.
  - right. left. reflexivity.
  - reflexivity.
Defined.

Lemma compare_extracts_both_in_order_witness :
  exists evs,
    trace (snd (generate_summary Sample.world None None Sample.both_failed))
    = evs ++ trace Sample.both_failed
    /\ List.filter is_process_file_call evs
       = [Called_process_file "/tmp/tmpaa.pdf" "purchase_order";
          Called_process_file "/tmp/tmpa.csv" "invoice"].
Proof.
  apply (compare_extracts_both_in_order Sample.world None None
           Sample.both_failed "/tmp/tmpa.csv" "/tmp/tmpaa.pdf");
    vm_compute; reflexivity.
Defined.

Lemma compare_returns_model_reply_witness :
  exists prompt h,
    trace (snd (generate_summary Sample.world None None Sample.both_ready))
    = LLM_invoke (prompt_text Sample.world prompt
                    (session (snd (reextract_missing Sample.world
                                     Sample.both_ready))))
      :: Pezzo_get_prompt "PurchaseOrder" :: h
    /\ get_prompt Sample.world h "PurchaseOrder" = Returned prompt
    /\ llm_invoke Sample.world (Pezzo_get_prompt "PurchaseOrder" :: h)
         (prompt_text Sample.world prompt
            (session (snd (reextract_missing Sample.world Sample.both_ready))))
       = Returned "The documents agree.".
Proof.
  apply (compare_returns_model_reply Sample.world None None Sample.both_ready
           "The documents agree."); vm_compute; reflexivity.
Defined.



Lemma no_comparison_without_click_witness :
  only_adds (fun ev => negb (is_comparison ev)) Sample.fresh
    (snd (main Sample.world Sample.click_extract_empty_invoice Sample.fresh)).
Proof.
  exact (no_comparison_without_click Sample.world
           Sample.click_extract_empty_invoice Sample.fresh eq_refl).
Defined.

Lemma comparison_shown_is_downloadable_witness :
  let t := trace (snd (main Sample.world Sample.click_compare
                         Sample.both_ready)) in
  (exists comparison rest,
     t = Shown (st_download_button "Download Comparison" comparison
                  "invoice_po_comparison.md" "text/markdown")
         :: Shown (st_markdown comparison) :: rest)
  \/ (exists rest,
        t = Shown (st_info
              "Upload both Invoice and Purchase Order to enable comparison.")
            :: rest)
  \/ (exists rest,
        t = Shown (st_error "Azure Vision credentials missing.") :: rest).
Proof.
  apply (comparison_shown_is_downloadable Sample.world Sample.click_compare
           Sample.both_ready eq_refl).
  vm_compute. reflexivity.
Defined.

Lemma extract_click_touches_one_role_witness :
  same_role PurchaseOrder Sample.fresh
    (snd (main Sample.world Sample.click_extract_empty_invoice Sample.fresh)).
Proof.
  exact (proj1 (extract_click_touches_one_role Sample.world
                  Sample.click_extract_empty_invoice Sample.fresh eq_refl)
               eq_refl).
Defined.
